(** * bittensor_network_switcher.py: a shallow embedding and its properties

    The program keeps one setting, the network name, in the JSON file
    [~/.bittensor/network_config.json].  Its methods are embedded as
    computations over an explicit world (that directory and file, the
    text written to standard output, the log of filesystem calls) that
    either return or raise a Python exception.  The [json] module and the
    builtin [repr] are library code: the program is written against the
    interface [PyRuntime], and [CPython] below is an executable instance of
    it on which concrete runs are evaluated. *)

From Stdlib Require Import String Ascii ZArith NArith List DecimalString.
From stdpp Require Import base decidable option list numbers.
Import ListNotations.

#[local] Set Warnings "-register-all".

Local Open Scope N_scope.

(** ** Python values *)

(** A Python [str] is a sequence of code points. *)
Abbreviation pystr := (list N).

(** A [bytes] object: each character of the Rocq string is one byte. *)
Abbreviation bytes := string.

Fixpoint str (s : string) : pystr :=
  match s with
  | EmptyString => []
  | String c s' => N_of_ascii c :: str s'
  end.
Arguments str : simpl never.

(** The values [json.load] can return.  A float is carried by the decimal
    numeral that names it; a [dict] keeps its keys in insertion order. *)
Inductive value :=
  | VNone
  | VBool (b : bool)
  | VInt (z : Z)
  | VFloat (numeral : pystr)
  | VStr (s : pystr)
  | VList (items : list value)
  | VDict (items : list (pystr * value)).

Abbreviation dict := (list (pystr * value)).

(** [d[k] = v]: an existing key keeps its place, a new one goes last. *)
Fixpoint dict_setitem (k : pystr) (v : value) (d : dict) : dict :=
  match d with
  | [] => [(k, v)]
  | (k', v') :: d' =>
      if decide (k' = k) then (k, v) :: d' else (k', v') :: dict_setitem k v d'
  end.

Fixpoint dict_lookup (k : pystr) (d : dict) : option value :=
  match d with
  | [] => None
  | (k', v') :: d' => if decide (k' = k) then Some v' else dict_lookup k d'
  end.

(** [d.get(k, default)] *)
Definition dict_get (k : pystr) (default : value) (d : dict) : value :=
  match dict_lookup k d with
  | Some v => v
  | None => default
  end.

Definition dict_keys (d : dict) : list pystr := map fst d.

(** [str.strip()] with no argument removes the characters for which
    [str.isspace] holds from both ends. *)
Definition isspace (c : N) : bool :=
  (9 <=? c) && (c <=? 13) || (28 <=? c) && (c <=? 32)
  || (c =? 133) || (c =? 160) || (c =? 5760)
  || (8192 <=? c) && (c <=? 8202)
  || (c =? 8232) || (c =? 8233) || (c =? 8239) || (c =? 8287) || (c =? 12288).

Fixpoint lstrip (s : pystr) : pystr :=
  match s with
  | c :: s' => if isspace c then lstrip s' else s
  | [] => []
  end.

Definition rstrip (s : pystr) : pystr := rev (lstrip (rev s)).

Definition strip (s : pystr) : pystr := rstrip (lstrip s).

(** ** The world and the exceptions *)

(** The part of the home directory the program touches: [~/.bittensor] is
    absent, or it is a directory in which [network_config.json] is absent
    or a file with some content. *)
Inductive filesystem :=
  | DirAbsent
  | DirPresent (config_file : option bytes).

Inductive syscall := Makedirs | OpenRead | OpenWrite.

Record world := World {
  fs : filesystem;
  stdout : pystr;
  fs_calls : list syscall
}.

Inductive exn :=
  | FileNotFoundError
  | JSONDecodeError
  | UnicodeDecodeError
  | TypeError
  | AttributeError
  | EOFError
  | KeyboardInterrupt
  | SystemExit (code : Z).

Global Instance exn_eq_dec : EqDecision exn.
Proof. solve_decision. Defined.

Inductive outcome (A : Type) :=
  | Returned (a : A)
  | Raised (e : exn).
Arguments Returned {A} a.
Arguments Raised {A} e.

(** A computation runs in a world and returns or raises, in a new world. *)
Definition M (A : Type) : Type := world -> outcome A * world.

Definition ret {A} (a : A) : M A := fun w => (Returned a, w).

Definition raise {A} (e : exn) : M A := fun w => (Raised e, w).

Definition bind {A B} (m : M A) (k : A -> M B) : M B :=
  fun w =>
    match m w with
    | (Returned a, w') => k a w'
    | (Raised e, w') => (Raised e, w')
    end.

(** [try: m except ...: h e] where [h] re-raises what it does not handle. *)
Definition try_except {A} (m : M A) (h : exn -> M A) : M A :=
  fun w =>
    match m w with
    | (Returned a, w') => (Returned a, w')
    | (Raised e, w') => h e w'
    end.

Notation "x <- m ;; k" := (bind m (fun x => k))
  (at level 100, m at next level, right associativity).
Notation "m ;; k" := (bind m (fun _ => k))
  (at level 100, right associativity).

(** What the shell sees when [main] ends with the given outcome. *)
Definition exit_status (o : outcome unit) : Z :=
  match o with
  | Returned _ => 0
  | Raised (SystemExit code) => code
  | Raised KeyboardInterrupt => 130
  | Raised _ => 1
  end%Z.

(** *** Primitive effects *)

Definition log (c : syscall) : M unit :=
  fun w => (Returned tt, World (fs w) (stdout w) (fs_calls w ++ [c])).

Definition write_stdout (s : pystr) : M unit :=
  fun w => (Returned tt, World (fs w) (stdout w ++ s) (fs_calls w)).

(** [print(s)] *)
Definition print (s : pystr) : M unit := write_stdout (s ++ [10]).

(** [sys.exit(code)] *)
Definition sys_exit {A} (code : Z) : M A := raise (SystemExit code).

(** [os.makedirs(self.bittensor_dir, exist_ok=True)] *)
Definition os_makedirs : M unit :=
  log Makedirs ;;
  fun w =>
    match fs w with
    | DirAbsent => (Returned tt, World (DirPresent None) (stdout w) (fs_calls w))
    | DirPresent _ => (Returned tt, w)
    end.

(** [open(self.config_path, 'r')]: the bytes the file object will read. *)
Definition open_r : M bytes :=
  log OpenRead ;;
  fun w =>
    match fs w with
    | DirPresent (Some content) => (Returned content, w)
    | _ => (Raised FileNotFoundError, w)
    end.

(** [open(self.config_path, 'w')]: creates the file or truncates it. *)
Definition open_w : M unit :=
  log OpenWrite ;;
  fun w =>
    match fs w with
    | DirPresent _ =>
        (Returned tt, World (DirPresent (Some EmptyString)) (stdout w) (fs_calls w))
    | DirAbsent => (Raised FileNotFoundError, w)
    end.

(** [f.write(data)] on the file opened by [open_w]. *)
Definition file_write (data : bytes) : M unit :=
  fun w =>
    match fs w with
    | DirPresent (Some content) =>
        (Returned tt, World (DirPresent (Some (content ++ data)%string)) (stdout w) (fs_calls w))
    | _ => (Returned tt, w)
    end.

(** Standard input as the program meets it: each call of [input] takes the
    next event, a line typed by the user or Ctrl-C; after the last event
    the stream is at end of file. *)
Inductive stdin_event :=
  | Line (text : pystr)
  | Interrupt.

(** [input(prompt)] *)
Definition input (prompt : pystr) (next : option stdin_event) : M pystr :=
  write_stdout prompt ;;
  match next with
  | Some (Line text) => ret text
  | Some Interrupt => raise KeyboardInterrupt
  | None => raise EOFError
  end.

(** ** The library interface *)

Inductive load_result :=
  | Loaded (v : value)
  | NotJSON      (* json.JSONDecodeError *)
  | NotText.     (* UnicodeDecodeError while reading the text file *)

Class PyRuntime := {
  (** [json.load(f)] on a file opened in text mode holding these bytes *)
  json_load : bytes -> load_result;
  (** what [json.dump(v, f, indent=4)] writes to a file opened in text mode *)
  json_dump : value -> bytes;
  (** [repr(v)] *)
  py_repr : value -> pystr
}.

(** ** The program *)

Section BittensorNetworkSwitcher.

Context {RT : PyRuntime}.

Definition json_load_file (f : bytes) : M value :=
  match json_load f with
  | Loaded v => ret v
  | NotJSON => raise JSONDecodeError
  | NotText => raise UnicodeDecodeError
  end.

(** [config[k] = v] *)
Definition setitem (config : value) (k : pystr) (v : value) : M value :=
  match config with
  | VDict d => ret (VDict (dict_setitem k v d))
  | _ => raise TypeError
  end.

(** [config.get(k, default)] *)
Definition get (config : value) (k : pystr) (default : value) : M value :=
  match config with
  | VDict d => ret (dict_get k default d)
  | _ => raise AttributeError
  end.

(** [f"{v}"] *)
Definition format_value (v : value) : pystr :=
  match v with
  | VStr s => s
  | _ => py_repr v
  end.

Definition __init__ : M unit :=
  os_makedirs.

Definition default_config : value :=
  VDict [(str "network", VStr (str "Not set"))].

Definition read_config : M value :=
  try_except
    (f <- open_r ;; json_load_file f)
    (fun e =>
       match e with
       | FileNotFoundError | JSONDecodeError => ret default_config
       | _ => raise e
       end).

Definition write_config (config : value) : M unit :=
  open_w ;;
  file_write (json_dump config).

Definition valid_networks : list pystr := [str "mainnet"; str "testnet"].

Definition switch_network (network : pystr) : M unit :=
  (if bool_decide (network ∉ valid_networks) then
     print (str "Error: Invalid network '" ++ network
            ++ str "'. Choose 'mainnet' or 'testnet'.") ;;
     sys_exit 1
   else ret tt) ;;
  config <- read_config ;;
  config <- setitem config (str "network") (VStr network) ;;
  write_config config ;;
  print ([9989] ++ str " Successfully set network to " ++ network) ;;
  print (str "Note: You may need to restart your Bittensor services to apply this change.").

Definition check_current_network : M unit :=
  config <- read_config ;;
  current_network <- get config (str "network") (VStr (str "Not set")) ;;
  print (str "Current network: " ++ format_value current_network).

Inductive loop_ctl := Continue | Break.

(** The body of the [try] in the loop, run on the next input event. *)
Definition loop_body (next : option stdin_event) : M loop_ctl :=
  line <- input (str "Enter your choice (1-4): ") next ;;
  let choice := strip line in
  if decide (choice = str "1") then
    switch_network (str "mainnet") ;; ret Continue
  else if decide (choice = str "2") then
    switch_network (str "testnet") ;; ret Continue
  else if decide (choice = str "3") then
    check_current_network ;; ret Continue
  else if decide (choice = str "4") then
    ret Break
  else
    print (str "Invalid choice. Please try again.") ;; ret Continue.

Definition iteration (next : option stdin_event) : M loop_ctl :=
  try_except
    (loop_body next)
    (fun e =>
       match e with
       | KeyboardInterrupt => print ([10] ++ str "Operation cancelled.") ;; ret Break
       | _ => raise e
       end).

(** [while True: ...], one iteration per event of standard input; at end
    of file [input] raises [EOFError], which nothing catches. *)
Fixpoint while_true (stdin : list stdin_event) : M unit :=
  match stdin with
  | [] => iteration None ;; ret tt
  | ev :: rest =>
      ctl <- iteration (Some ev) ;;
      match ctl with
      | Break => ret tt
      | Continue => while_true rest
      end
  end.

Definition interactive_mode (stdin : list stdin_event) : M unit :=
  print ([127760] ++ str " Bittensor Network Switcher") ;;
  print (str "1. Switch to Mainnet") ;;
  print (str "2. Switch to Testnet") ;;
  print (str "3. Check Current Network") ;;
  print (str "4. Exit") ;;
  while_true stdin.

(** The result of [parser.parse_args()]. *)
Record Namespace := {
  network : option pystr;
  check : bool
}.

Definition truthy (o : option pystr) : option pystr :=
  match o with
  | Some (c :: s) => Some (c :: s)
  | _ => None
  end.

Definition main (args : Namespace) (stdin : list stdin_event) : M unit :=
  __init__ ;;
  match truthy (network args) with
  | Some n => switch_network n
  | None =>
      if check args then check_current_network
      else interactive_mode stdin
  end.

End BittensorNetworkSwitcher.

(** ** An executable instance of the library interface

    The text layer of [open] (UTF-8, universal newlines) and the [json]
    module as CPython has them, so that runs of the program can be
    evaluated on concrete files.  Two simplifications: a float literal is
    not rounded (the numeral read is the numeral written back), and [repr]
    takes every character above U+007F to be printable. *)

Module CPython.

(** *** Reading text: UTF-8, strict *)

Definition cont (b : N) : bool := (128 <=? b) && (b <=? 191).

Fixpoint utf8_decode (bs : list N) : option pystr :=
  match bs with
  | [] => Some []
  | b0 :: bs1 =>
      if b0 <? 128 then cons b0 <$> utf8_decode bs1
      else
        match bs1 with
        | [] => None
        | b1 :: bs2 =>
            if (194 <=? b0) && (b0 <=? 223) && cont b1 then
              cons ((b0 - 192) * 64 + (b1 - 128)) <$> utf8_decode bs2
            else
              match bs2 with
              | [] => None
              | b2 :: bs3 =>
                  if (224 <=? b0) && (b0 <=? 239) && cont b1 && cont b2
                     && negb ((b0 =? 224) && (b1 <? 160))
                     && negb ((b0 =? 237) && (160 <=? b1))
                  then
                    cons ((b0 - 224) * 4096 + (b1 - 128) * 64 + (b2 - 128))
                      <$> utf8_decode bs3
                  else
                    match bs3 with
                    | [] => None
                    | b3 :: bs4 =>
                        if (240 <=? b0) && (b0 <=? 244) && cont b1 && cont b2 && cont b3
                           && negb ((b0 =? 240) && (b1 <? 144))
                           && negb ((b0 =? 244) && (144 <=? b1))
                        then
                          cons ((b0 - 240) * 262144 + (b1 - 128) * 4096
                                + (b2 - 128) * 64 + (b3 - 128))
                            <$> utf8_decode bs4
                        else None
                    end
              end
        end
  end.

(** Universal newlines: [\r\n] and [\r] are read as [\n]. *)
Fixpoint newlines (s : pystr) : pystr :=
  match s with
  | [] => []
  | c :: s' =>
      if c =? 13 then
        match s' with
        | c' :: s'' => if c' =? 10 then 10 :: newlines s'' else 10 :: newlines s'
        | [] => [10]
        end
      else c :: newlines s'
  end.

Definition read_text (content : bytes) : option pystr :=
  newlines <$> utf8_decode (str content).

(** *** json.loads *)

Definition is_ws (c : N) : bool :=
  (c =? 32) || (c =? 9) || (c =? 10) || (c =? 13).

Fixpoint skip_ws (s : pystr) : pystr :=
  match s with
  | c :: s' => if is_ws c then skip_ws s' else s
  | [] => []
  end.

Definition is_digit (c : N) : bool := (48 <=? c) && (c <=? 57).

Fixpoint span_digits (s : pystr) : pystr * pystr :=
  match s with
  | c :: s' =>
      if is_digit c then let '(ds, rest) := span_digits s' in (c :: ds, rest)
      else ([], s)
  | [] => ([], [])
  end.

Definition digits_value (ds : pystr) : Z :=
  fold_left (fun acc d => 10 * acc + Z.of_N (d - 48))%Z ds 0%Z.

Fixpoint strip_prefix (p s : pystr) : option pystr :=
  match p, s with
  | [], _ => Some s
  | c :: p', c' :: s' => if c =? c' then strip_prefix p' s' else None
  | _ :: _, [] => None
  end.

(** The integer part, an optional sign handled by the caller and then
    [0] or a digit string without leading zero: its digits and the rest. *)
Definition scan_int_part (s : pystr) : option (pystr * pystr) :=
  match s with
  | c :: s' =>
      if c =? 48 then Some ([c], s')
      else if is_digit c then
        let '(ds, rest) := span_digits s' in Some (c :: ds, rest)
      else None
  | [] => None
  end.

(** The optional fraction: a dot and at least one digit. *)
Definition scan_frac (s : pystr) : pystr * pystr :=
  match s with
  | 46 :: s' =>
      match span_digits s' with
      | ([], _) => ([], s)
      | (ds, rest) => (46 :: ds, rest)
      end
  | _ => ([], s)
  end.

(** The optional exponent: [e] or [E], an optional sign, at least one digit. *)
Definition scan_exp (s : pystr) : pystr * pystr :=
  match s with
  | e :: s' =>
      if (e =? 101) || (e =? 69) then
        let '(sign, s'') :=
          match s' with
          | c :: t => if (c =? 45) || (c =? 43) then ([c], t) else ([], s')
          | [] => ([], s')
          end in
        match span_digits s'' with
        | ([], _) => ([], s)
        | (ds, rest) => (e :: sign ++ ds, rest)
        end
      else ([], s)
  | [] => ([], s)
  end.

Definition scan_number (s : pystr) : option (value * pystr) :=
  let '(neg, s1) :=
    match s with
    | 45 :: t => (true, t)
    | _ => (false, s)
    end in
  '(int_part, s2) ← scan_int_part s1;
  let '(frac, s3) := scan_frac s2 in
  let '(exp, s4) := scan_exp s3 in
  match frac, exp with
  | [], [] =>
      let n := digits_value int_part in
      Some (VInt (if neg then - n else n)%Z, s4)
  | _, _ =>
      Some (VFloat ((if neg then [45] else []) ++ int_part ++ frac ++ exp), s4)
  end.

Definition hex_value (c : N) : option N :=
  if is_digit c then Some (c - 48)
  else if (97 <=? c) && (c <=? 102) then Some (c - 87)
  else if (65 <=? c) && (c <=? 70) then Some (c - 55)
  else None.

(** The four hexadecimal digits of a [\uXXXX] escape. *)
Definition scan_hex4 (s : pystr) : option (N * pystr) :=
  match s with
  | a :: b :: c :: d :: rest =>
      a ← hex_value a; b ← hex_value b; c ← hex_value c; d ← hex_value d;
      Some (a * 4096 + b * 256 + c * 16 + d, rest)
  | _ => None
  end.

Definition simple_escape (c : N) : option N :=
  if c =? 34 then Some 34        (* quote *)
  else if c =? 92 then Some 92   (* backslash *)
  else if c =? 47 then Some 47   (* slash *)
  else if c =? 98 then Some 8    (* b: backspace *)
  else if c =? 102 then Some 12  (* f: form feed *)
  else if c =? 110 then Some 10  (* n: line feed *)
  else if c =? 114 then Some 13  (* r: carriage return *)
  else if c =? 116 then Some 9   (* t: tab *)
  else None.

(** [scanstring], after the opening quote: the string and what follows the
    closing quote. *)
Fixpoint scanstring (fuel : nat) (s : pystr) : option (pystr * pystr) :=
  match fuel with
  | O => None
  | S fuel =>
      match s with
      | [] => None
      | c :: s1 =>
          if c =? 34 then Some ([], s1)
          else if c =? 92 then
            match s1 with
            | [] => None
            | e :: s2 =>
                if e =? 117 then
                  '(u, s3) ← scan_hex4 s2;
                  let low :=
                    if (55296 <=? u) && (u <=? 56319) then
                      s4 ← strip_prefix [92; 117] s3; scan_hex4 s4
                    else None in
                  match low with
                  | Some (u2, s5) =>
                      if (56320 <=? u2) && (u2 <=? 57343) then
                        '(r, rest) ← scanstring fuel s5;
                        Some ((65536 + (u - 55296) * 1024 + (u2 - 56320)) :: r, rest)
                      else
                        '(r, rest) ← scanstring fuel s3; Some (u :: r, rest)
                  | None =>
                      if (55296 <=? u) && (u <=? 56319)
                         && bool_decide (is_Some (strip_prefix [92; 117] s3))
                      then None
                      else '(r, rest) ← scanstring fuel s3; Some (u :: r, rest)
                  end
                else
                  c' ← simple_escape e;
                  '(r, rest) ← scanstring fuel s2; Some (c' :: r, rest)
            end
          else if c <? 32 then None
          else '(r, rest) ← scanstring fuel s1; Some (c :: r, rest)
      end
  end.

Definition scan_string (s : pystr) : option (pystr * pystr) :=
  scanstring (S (length s)) s.

(** [scan_once] at the first character of a value, with the loops of
    [JSONArray] and [JSONObject]. *)
Fixpoint scan_once (fuel : nat) (s : pystr) : option (value * pystr) :=
  match fuel with
  | O => None
  | S fuel =>
      match s with
      | [] => None
      | c :: s1 =>
          if c =? 34 then
            '(r, rest) ← scan_string s1; Some (VStr r, rest)
          else if c =? 123 then
            match skip_ws s1 with
            | c' :: s2 =>
                if c' =? 125 then Some (VDict [], s2)
                else if c' =? 34 then scan_members fuel s2 []
                else None
            | [] => None
            end
          else if c =? 91 then
            match skip_ws s1 with
            | c' :: s2 =>
                if c' =? 93 then Some (VList [], s2)
                else scan_items fuel (c' :: s2) []
            | [] => None
            end
          else
            match strip_prefix (str "null") s with
            | Some rest => Some (VNone, rest)
            | None =>
            match strip_prefix (str "true") s with
            | Some rest => Some (VBool true, rest)
            | None =>
            match strip_prefix (str "false") s with
            | Some rest => Some (VBool false, rest)
            | None =>
            match strip_prefix (str "NaN") s with
            | Some rest => Some (VFloat (str "NaN"), rest)
            | None =>
            match strip_prefix (str "Infinity") s with
            | Some rest => Some (VFloat (str "Infinity"), rest)
            | None =>
            match strip_prefix (str "-Infinity") s with
            | Some rest => Some (VFloat (str "-Infinity"), rest)
            | None => scan_number s
            end end end end end end
      end
  end

(** after the opening quote of a key *)
with scan_members (fuel : nat) (s : pystr) (acc : dict) : option (value * pystr) :=
  match fuel with
  | O => None
  | S fuel =>
      '(key, s1) ← scan_string s;
      match skip_ws s1 with
      | c :: s2 =>
          if c =? 58 then
            '(v, s3) ← scan_once fuel (skip_ws s2);
            let acc := dict_setitem key v acc in
            match skip_ws s3 with
            | c' :: s4 =>
                if c' =? 125 then Some (VDict acc, s4)
                else if c' =? 44 then
                  match skip_ws s4 with
                  | q :: s5 => if q =? 34 then scan_members fuel s5 acc else None
                  | [] => None
                  end
                else None
            | [] => None
            end
          else None
      | [] => None
      end
  end

(** at the first character of an item *)
with scan_items (fuel : nat) (s : pystr) (acc : list value) : option (value * pystr) :=
  match fuel with
  | O => None
  | S fuel =>
      '(v, s1) ← scan_once fuel s;
      match skip_ws s1 with
      | c :: s2 =>
          if c =? 93 then Some (VList (acc ++ [v]), s2)
          else if c =? 44 then scan_items fuel (skip_ws s2) (acc ++ [v])
          else None
      | [] => None
      end
  end.

Definition loads (s : pystr) : option value :=
  match s with
  | 65279 :: _ => None            (* a byte order mark is refused *)
  | _ =>
      '(v, rest) ← scan_once (2 * length s + 2) (skip_ws s);
      match skip_ws rest with
      | [] => Some v
      | _ :: _ => None              (* extra data *)
      end
  end.

Definition load (content : bytes) : load_result :=
  match read_text content with
  | None => NotText
  | Some text =>
      match loads text with
      | Some v => Loaded v
      | None => NotJSON
      end
  end.

(** *** json.dumps with [indent=4] (and so [ensure_ascii], separators
    [","] and [": "]) *)

Definition hex_digit (n : N) : N := if n <? 10 then 48 + n else 87 + n.

Definition hex (width : nat) (n : N) : pystr :=
  map (fun i => hex_digit ((n / 16 ^ N.of_nat i) mod 16)) (rev (seq 0 width)).

Definition u_escape (n : N) : pystr := [92; 117] ++ hex 4 n.

Definition escape_ascii (c : N) : pystr :=
  if c =? 34 then [92; 34]
  else if c =? 92 then [92; 92]
  else if c =? 8 then [92; 98]
  else if c =? 12 then [92; 102]
  else if c =? 10 then [92; 110]
  else if c =? 13 then [92; 114]
  else if c =? 9 then [92; 116]
  else if (32 <=? c) && (c <=? 126) then [c]
  else if c <? 65536 then u_escape c
  else
    u_escape (55296 + ((c - 65536) / 1024) mod 1024)
    ++ u_escape (56320 + (c - 65536) mod 1024).

Definition encode_string (s : pystr) : pystr :=
  [34] ++ concat (map escape_ascii s) ++ [34].

Definition decimal (z : Z) : pystr :=
  str (DecimalString.NilZero.string_of_int (Z.to_int z)).

Fixpoint join (sep : pystr) (parts : list pystr) : pystr :=
  match parts with
  | [] => []
  | [p] => p
  | p :: ps => p ++ sep ++ join sep ps
  end.

Definition newline_indent (level : nat) : pystr :=
  10 :: repeat 32 (4 * level)%nat.

Fixpoint encode (level : nat) (v : value) : pystr :=
  match v with
  | VNone => str "null"
  | VBool true => str "true"
  | VBool false => str "false"
  | VInt z => decimal z
  | VFloat numeral => numeral
  | VStr s => encode_string s
  | VList [] => str "[]"
  | VList items =>
      str "[" ++ newline_indent (S level)
      ++ join (str "," ++ newline_indent (S level)) (map (encode (S level)) items)
      ++ newline_indent level ++ str "]"
  | VDict [] => str "{}"
  | VDict items =>
      str "{" ++ newline_indent (S level)
      ++ join (str "," ++ newline_indent (S level))
           (map (fun kv => encode_string (fst kv) ++ str ": " ++ encode (S level) (snd kv))
              items)
      ++ newline_indent level ++ str "}"
  end.

Definition dumps (v : value) : pystr := encode 0 v.

(** The text written is ASCII: one byte per character. *)
Fixpoint to_bytes (s : pystr) : bytes :=
  match s with
  | [] => EmptyString
  | c :: s' => String (ascii_of_N c) (to_bytes s')
  end.

Definition dump (v : value) : bytes := to_bytes (dumps v).

(** *** repr *)

Definition repr_char (quote c : N) : pystr :=
  if (c =? quote) || (c =? 92) then [92; c]
  else if c =? 9 then [92; 116]
  else if c =? 10 then [92; 110]
  else if c =? 13 then [92; 114]
  else if (c <? 32) || (c =? 127) then [92; 120] ++ hex 2 c
  else [c].

Definition repr_str (s : pystr) : pystr :=
  let quote :=
    if bool_decide (39 ∈ s) && negb (bool_decide (34 ∈ s)) then 34 else 39 in
  [quote] ++ concat (map (repr_char quote) s) ++ [quote].

Fixpoint repr (v : value) : pystr :=
  match v with
  | VNone => str "None"
  | VBool true => str "True"
  | VBool false => str "False"
  | VInt z => decimal z
  | VFloat numeral => numeral
  | VStr s => repr_str s
  | VList items => str "[" ++ join (str ", ") (map repr items) ++ str "]"
  | VDict items =>
      str "{"
      ++ join (str ", ")
           (map (fun kv => repr_str (fst kv) ++ str ": " ++ repr (snd kv)) items)
      ++ str "}"
  end.

#[export] Instance runtime : PyRuntime := {|
  json_load := load;
  json_dump := dump;
  py_repr := repr
|}.

End CPython.

(** ** Vocabulary of the statements *)

Section Vocabulary.

Context {RT : PyRuntime}.

(** The file [network_config.json], if there is one. *)
Definition config_of (f : filesystem) : option bytes :=
  match f with
  | DirAbsent => None
  | DirPresent c => c
  end.

(** The outcome of [read_config], by the state of the file. *)
Definition read_outcome (f : filesystem) : outcome value :=
  match config_of f with
  | None => Returned default_config
  | Some content =>
      match json_load content with
      | Loaded v => Returned v
      | NotJSON => Returned default_config
      | NotText => Raised UnicodeDecodeError
      end
  end.

(** [json.load] reads back [v] from what [json.dump] wrote for it. *)
Definition reloads (v : value) : Prop :=
  json_load (json_dump v) = Loaded v.

(** The file holds a single JSON object. *)
Definition holds_object (f : filesystem) : Prop :=
  ∃ content d, config_of f = Some content ∧ json_load content = Loaded (VDict d).

Definition logged (c : list syscall) (w : world) : world :=
  World (fs w) (stdout w) (fs_calls w ++ c).

Definition printed (s : pystr) (w : world) : world :=
  World (fs w) (stdout w ++ s) (fs_calls w).

Definition success_message (network : pystr) : pystr :=
  [9989] ++ str " Successfully set network to " ++ network ++ [10]
  ++ str "Note: You may need to restart your Bittensor services to apply this change."
  ++ [10].

(** What [switch_network] leaves on disk, whatever its outcome. *)
Definition switch_fs (network : pystr) (f : filesystem) : filesystem :=
  if bool_decide (network ∈ valid_networks) then
    match f, read_outcome f with
    | DirPresent _, Returned (VDict d) =>
        DirPresent (Some (json_dump (VDict (dict_setitem (str "network") (VStr network) d))))
    | _, _ => f
    end
  else f.

(** A run of the program: its arguments and what arrives on standard input. *)
Definition invocation : Type := Namespace * list stdin_event.

(** Runs one after the other, each in the world the previous one left. *)
Fixpoint run_all (runs : list invocation) (w : world) : world :=
  match runs with
  | [] => w
  | (args, stdin) :: rest => run_all rest (snd (main args stdin w))
  end.

(** With respect to the file system [f0] at the start: the file is as it
    was, or it is the dump of the dictionary first read with "network" set
    to a valid name. *)
Definition untouched_or_switched (f0 f : filesystem) : Prop :=
  config_of f = config_of f0
  ∨ ∃ d0 network,
      read_outcome f0 = Returned (VDict d0)
      ∧ network ∈ valid_networks
      ∧ f = DirPresent (Some (json_dump (VDict (dict_setitem (str "network") (VStr network) d0)))).

Definition prompt : pystr := str "Enter your choice (1-4): ".

Definition menu : pystr :=
  [127760] ++ str " Bittensor Network Switcher" ++ [10]
  ++ str "1. Switch to Mainnet" ++ [10]
  ++ str "2. Switch to Testnet" ++ [10]
  ++ str "3. Check Current Network" ++ [10]
  ++ str "4. Exit" ++ [10].

Definition cancelled : pystr := [10] ++ str "Operation cancelled." ++ [10].

(** The loop, from the input [stdin] in world [w], comes to its iteration
    on the input [stdin'] in world [w']. *)
Inductive loop_reaches :
    list stdin_event → world → list stdin_event → world → Prop :=
  | reaches_here stdin w : loop_reaches stdin w stdin w
  | reaches_next ev stdin w w1 stdin' w' :
      iteration (Some ev) w = (Returned Continue, w1) →
      loop_reaches stdin w1 stdin' w' →
      loop_reaches (ev :: stdin) w stdin' w'.

End Vocabulary.


(** ** Concrete worlds *)

(** JSON text written with apostrophes for its double quotes. *)
Fixpoint quoted (s : string) : bytes :=
  match s with
  | EmptyString => EmptyString
  | String c s' => String (if Ascii.eqb c "'" then "034" else c)%char (quoted s')
  end.

Definition empty_home : world := World DirAbsent [] [].

Definition with_file (content : bytes) : world :=
  World (DirPresent (Some content)) [] [].

Definition mainnet_and_extra : bytes :=
  quoted "{'network': 'mainnet', 'extra': 'keepme'}".

(** * Properties *)

Lemma str_append (s t : string) : str (s ++ t)%string = str s ++ str t.
Proof. induction s as [|c s IH]; [done|]. unfold str in *. simpl. by rewrite IH. Qed.

(** ** Dictionaries *)

Lemma dict_lookup_setitem_eq (k : pystr) (v : value) (d : dict) :
  dict_lookup k (dict_setitem k v d) = Some v.
Proof.
  induction d as [|[k' v'] d IH]; simpl.
  - by rewrite decide_True.
  - destruct (decide (k' = k)) as [->|Hne]; simpl.
    + by rewrite decide_True.
    + by rewrite decide_False.
Qed.

Lemma dict_lookup_setitem_ne (k k0 : pystr) (v : value) (d : dict) :
  k0 ≠ k → dict_lookup k0 (dict_setitem k v d) = dict_lookup k0 d.
Proof.
  intros Hne. induction d as [|[k' v'] d IH]; simpl.
  - by rewrite decide_False.
  - destruct (decide (k' = k)) as [->|Hk]; simpl.
    + by rewrite !decide_False.
    + by rewrite IH.
Qed.

(** Assigning twice to a key is assigning the last value. *)
Lemma dict_setitem_setitem (k : pystr) (v v' : value) (d : dict) :
  dict_setitem k v' (dict_setitem k v d) = dict_setitem k v' d.
Proof.
  induction d as [|[k0 v0] d IH]; simpl.
  - by rewrite decide_True.
  - destruct (decide (k0 = k)) as [->|Hk]; simpl.
    + by rewrite decide_True.
    + by rewrite decide_False, IH.
Qed.

(** Assigning to a key the dictionary has keeps the keys and their order. *)
Lemma dict_keys_setitem (k : pystr) (v : value) (d : dict) :
  is_Some (dict_lookup k d) → dict_keys (dict_setitem k v d) = dict_keys d.
Proof.
  unfold dict_keys. induction d as [|[k0 v0] d IH]; simpl.
  - by intros [? ?].
  - destruct (decide (k0 = k)) as [->|Hk]; simpl; [done|].
    intros H. by rewrite IH.
Qed.

(** Assigning to a new key puts it last. *)
Lemma dict_keys_setitem_new (k : pystr) (v : value) (d : dict) :
  dict_lookup k d = None → dict_keys (dict_setitem k v d) = dict_keys d ++ [k].
Proof.
  unfold dict_keys. induction d as [|[k0 v0] d IH]; simpl; [done|].
  destruct (decide (k0 = k)) as [->|Hk]; simpl; [done|].
  intros H. by rewrite IH.
Qed.

(** ** What each method does to the world *)

Section Properties.

Context {RT : PyRuntime}.

(** String constants stay folded in the proofs. *)
#[local] Opaque str.

(** Outputs and logs are compared after reassociating the appends. *)
Ltac same_lists :=
  repeat first [rewrite <- app_assoc | progress simpl]; try reflexivity.

Lemma read_config_run (w : world) :
  read_config w = (read_outcome (fs w), logged [OpenRead] w).
Proof.
  unfold read_config, read_outcome, try_except, bind, open_r, log, json_load_file, logged.
  destruct w as [[|[content|]] out calls]; simpl; try reflexivity.
  destruct (json_load content); reflexivity.
Qed.

Lemma switch_network_invalid_run (network : pystr) (w : world) :
  network ∉ valid_networks →
  switch_network network w =
    (Raised (SystemExit 1),
     printed (str "Error: Invalid network '" ++ network
              ++ str "'. Choose 'mainnet' or 'testnet'." ++ [10]) w).
Proof.
  intros Hn. unfold switch_network.
  rewrite bool_decide_eq_true_2 by done.
  unfold bind, print, write_stdout, sys_exit, raise, printed. simpl.
  by same_lists.
Qed.

(** A valid switch, when [read_config] returns a dictionary and the
    directory is there: the file becomes the dump of the updated dictionary. *)
Lemma switch_network_run (network : pystr) (w : world) (c : option bytes) (d : dict) :
  network ∈ valid_networks →
  fs w = DirPresent c →
  read_outcome (fs w) = Returned (VDict d) →
  switch_network network w =
    (Returned tt,
     World (DirPresent (Some (json_dump (VDict (dict_setitem (str "network") (VStr network) d)))))
           (stdout w ++ success_message network)
           (fs_calls w ++ [OpenRead; OpenWrite])).
Proof.
  intros Hn Hfs Hread. unfold switch_network.
  rewrite bool_decide_eq_false_2 by (intros H; by apply H).
  unfold bind at 1. unfold ret at 1.
  unfold bind at 1. rewrite read_config_run, Hread.
  unfold setitem, bind, ret, write_config, open_w, log, file_write, print, write_stdout,
    success_message, logged. simpl. rewrite Hfs. simpl.
  by same_lists.
Qed.

(** A valid switch when [read_config] returns something else than a
    dictionary: [TypeError], and nothing is written. *)
Lemma switch_network_not_dict (network : pystr) (w : world) (v : value) :
  network ∈ valid_networks →
  read_outcome (fs w) = Returned v →
  (∀ d, v ≠ VDict d) →
  switch_network network w = (Raised TypeError, logged [OpenRead] w).
Proof.
  intros Hn Hread Hv. unfold switch_network.
  rewrite bool_decide_eq_false_2 by (intros H; by apply H).
  unfold bind at 1. unfold ret at 1.
  unfold bind at 1. rewrite read_config_run, Hread.
  unfold bind, setitem. destruct v; try reflexivity. by destruct (Hv items).
Qed.

(** A valid switch when [read_config] raises: the exception goes on. *)
Lemma switch_network_read_raises (network : pystr) (w : world) (e : exn) :
  network ∈ valid_networks →
  read_outcome (fs w) = Raised e →
  switch_network network w = (Raised e, logged [OpenRead] w).
Proof.
  intros Hn Hread. unfold switch_network.
  rewrite bool_decide_eq_false_2 by (intros H; by apply H).
  unfold bind at 1. unfold ret at 1.
  unfold bind at 1. by rewrite read_config_run, Hread.
Qed.

(** A valid switch without the directory: [open] for writing fails. *)
Lemma switch_network_no_dir (network : pystr) (w : world) :
  network ∈ valid_networks →
  fs w = DirAbsent →
  switch_network network w = (Raised FileNotFoundError, logged [OpenRead; OpenWrite] w).
Proof.
  intros Hn Hfs. unfold switch_network.
  rewrite bool_decide_eq_false_2 by (intros H; by apply H).
  unfold bind at 1. unfold ret at 1.
  unfold bind at 1. rewrite read_config_run. unfold read_outcome. rewrite Hfs. simpl.
  unfold bind, write_config, open_w, log, logged, bind. simpl. rewrite Hfs.
  by same_lists.
Qed.

Lemma check_current_network_run (w : world) (d : dict) :
  read_outcome (fs w) = Returned (VDict d) →
  check_current_network w =
    (Returned tt,
     World (fs w)
           (stdout w ++ str "Current network: "
            ++ format_value (dict_get (str "network") (VStr (str "Not set")) d) ++ [10])
           (fs_calls w ++ [OpenRead])).
Proof.
  intros Hread. unfold check_current_network.
  unfold bind at 1. rewrite read_config_run, Hread.
  unfold bind, get, ret, print, write_stdout, logged. simpl.
  by same_lists.
Qed.

Lemma read_outcome_missing (f : filesystem) :
  config_of f = None → read_outcome f = Returned default_config.
Proof. unfold read_outcome. by intros ->. Qed.

Lemma dict_get_default_config :
  dict_get (str "network") (VStr (str "Not set")) [(str "network", VStr (str "Not set"))]
  = VStr (str "Not set").
Proof. unfold dict_get. simpl. by rewrite decide_True. Qed.

(** ** The claims about [read_config], [switch_network], [check_current_network] *)

(** C1, as amended.  When [switch_network] is called with "mainnet" or
    "testnet" while the directory exists and [read_config] returns a
    dictionary (the file is missing, is text that is not JSON, or holds a
    JSON object), and [json.load] reads back what [json.dump] writes for the
    updated dictionary, the call returns without exiting and [read_config]
    then returns a dictionary whose "network" entry is the argument. *)
Theorem switch_network_then_read_config
    (w : world) (network : pystr) (c : option bytes) (d : dict) :
  network ∈ valid_networks →
  fs w = DirPresent c →
  fst (read_config w) = Returned (VDict d) →
  reloads (VDict (dict_setitem (str "network") (VStr network) d)) →
  ∃ w' w'' d',
    switch_network network w = (Returned tt, w')
    ∧ read_config w' = (Returned (VDict d'), w'')
    ∧ dict_lookup (str "network") d' = Some (VStr network).
Proof.
  intros Hn Hfs Hread Hre. rewrite read_config_run in Hread. simpl in Hread.
  eexists _, _, _. split; [by eapply switch_network_run|]. split.
  - rewrite read_config_run. unfold read_outcome. simpl. by rewrite Hre.
  - apply dict_lookup_setitem_eq.
Qed.

(** C2.  When [switch_network] is called with anything but "mainnet" or
    "testnet" it prints the error line naming the value and raises
    [SystemExit(1)], which nothing in the program catches: through [main]
    the exit status is 1.  The file system is as before and no filesystem
    call was made. *)
Theorem switch_network_rejects_invalid (w : world) (name : pystr) :
  name ∉ valid_networks →
  switch_network name w =
    (Raised (SystemExit 1),
     World (fs w)
           (stdout w ++ str "Error: Invalid network '" ++ name
            ++ str "'. Choose 'mainnet' or 'testnet'." ++ [10])
           (fs_calls w))
  ∧ exit_status (fst (switch_network name w)) = 1%Z
  ∧ (∀ args stdin,
       truthy (network args) = Some name →
       exit_status (fst (main args stdin w)) = 1%Z
       ∧ config_of (fs (snd (main args stdin w))) = config_of (fs w)).
Proof.
  intros Hn. split; [by apply switch_network_invalid_run|].
  split; [by rewrite switch_network_invalid_run|].
  intros args stdin Hargs. unfold main. rewrite Hargs.
  unfold bind, __init__, os_makedirs, bind, log. simpl.
  destruct (fs w) eqn:Hfs; rewrite switch_network_invalid_run by done; simpl; done.
Qed.

(** C3, as amended.  When the config file is missing, or its bytes read as
    text that is not valid JSON ([json.load] raises [JSONDecodeError]),
    [read_config] returns the default dictionary and raises nothing; the
    file system is untouched. *)
Theorem read_config_default (w : world) :
  config_of (fs w) = None
  ∨ (∃ content, config_of (fs w) = Some content ∧ json_load content = NotJSON) →
  read_config w =
    (Returned (VDict [(str "network", VStr (str "Not set"))]),
     World (fs w) (stdout w) (fs_calls w ++ [OpenRead])).
Proof.
  intros H. rewrite read_config_run. unfold read_outcome, logged.
  destruct H as [->|(content & -> & ->)]; reflexivity.
Qed.

(** C4.  When the file holds a JSON object that has the key "network", a
    switch to "mainnet" or "testnet" returns and leaves a file that is the
    dump of a dictionary with the same keys in the same order, in which
    "network" is the argument and every other key has the value it had;
    read back, the file is that dictionary. *)
Theorem switch_network_preserves_unknown_keys
    (w : world) (network : pystr) (content : bytes) (d : dict) :
  network ∈ valid_networks →
  fs w = DirPresent (Some content) →
  json_load content = Loaded (VDict d) →
  is_Some (dict_lookup (str "network") d) →
  reloads (VDict (dict_setitem (str "network") (VStr network) d)) →
  ∃ w' d',
    switch_network network w = (Returned tt, w')
    ∧ fs w' = DirPresent (Some (json_dump (VDict d')))
    ∧ json_load (json_dump (VDict d')) = Loaded (VDict d')
    ∧ dict_keys d' = dict_keys d
    ∧ dict_lookup (str "network") d' = Some (VStr network)
    ∧ ∀ k, k ≠ str "network" → dict_lookup k d' = dict_lookup k d.
Proof.
  intros Hn Hfs Hload Hkey Hre.
  eexists _, (dict_setitem (str "network") (VStr network) d).
  split.
  { eapply switch_network_run; [done|done|].
    unfold read_outcome. rewrite Hfs. simpl. by rewrite Hload. }
  split; [done|]. split; [done|].
  split; [by apply dict_keys_setitem|].
  split; [by apply dict_lookup_setitem_eq|].
  intros k Hk. by apply dict_lookup_setitem_ne.
Qed.

(** C6.  When the config file does not exist, [check_current_network]
    prints exactly the line "Current network: Not set" and returns; the
    file system is unchanged, and the only filesystem call is the attempt
    to open the file for reading. *)
Theorem check_current_network_missing_file (w : world) :
  config_of (fs w) = None →
  check_current_network w =
    (Returned tt,
     World (fs w)
           (stdout w ++ str "Current network: Not set" ++ [10])
           (fs_calls w ++ [OpenRead])).
Proof.
  intros Hc.
  rewrite (check_current_network_run w [(str "network", VStr (str "Not set"))])
    by by apply read_outcome_missing.
  rewrite dict_get_default_config. simpl.
  pose proof (str_append "Current network: " "Not set") as Hline.
  simpl in Hline. by rewrite Hline, <- app_assoc.
Qed.

(** *** The file system after a switch *)

Lemma switch_network_fs (network : pystr) (w : world) :
  fs (snd (switch_network network w)) = switch_fs network (fs w).
Proof.
  unfold switch_fs. case_bool_decide as Hn.
  - destruct (fs w) as [|c] eqn:Hfs.
    { by rewrite switch_network_no_dir. }
    destruct (read_outcome (DirPresent c)) as [v|e] eqn:Hread.
    + destruct v;
        try (by erewrite switch_network_not_dict; [..|by rewrite Hfs|done]; done).
      by erewrite switch_network_run; [..|by rewrite Hfs]; done.
    + by erewrite switch_network_read_raises; [..|by rewrite Hfs]; done.
  - by rewrite switch_network_invalid_run.
Qed.

Lemma check_current_network_fs (w : world) :
  fs (snd (check_current_network w)) = fs w.
Proof.
  unfold check_current_network. unfold bind at 1. rewrite read_config_run.
  destruct (read_outcome (fs w)) as [v|e]; [|done].
  by destruct v.
Qed.

Lemma read_outcome_written (v : value) :
  reloads v → read_outcome (DirPresent (Some (json_dump v))) = Returned v.
Proof. unfold reloads, read_outcome. simpl. by intros ->. Qed.

(** C5.  For every world and every argument, two calls of [switch_network]
    in a row leave the file system as one call does, whether the calls
    return, exit or raise; where the first call writes, this rests on
    [json.load] reading back what [json.dump] wrote. *)
Theorem switch_network_idempotent (w : world) (network : pystr) :
  (∀ d, fst (read_config w) = Returned (VDict d) →
        reloads (VDict (dict_setitem (str "network") (VStr network) d))) →
  fs (snd (switch_network network (snd (switch_network network w))))
  = fs (snd (switch_network network w)).
Proof.
  intros Hre. rewrite read_config_run in Hre. simpl in Hre.
  rewrite !switch_network_fs. unfold switch_fs.
  case_bool_decide as Hn; [|done].
  destruct (fs w) as [|c]; [done|].
  destruct (read_outcome (DirPresent c)) as [v|e] eqn:Hread; [|by rewrite Hread].
  destruct v; try by rewrite Hread.
  rewrite read_outcome_written by by apply Hre.
  by rewrite dict_setitem_setitem.
Qed.

(** *** Relations between worlds that every run of the program keeps *)

Section Closure.

Variable R : world → world → Prop.
Hypothesis R_refl : ∀ w, R w w.
Hypothesis R_trans : ∀ w1 w2 w3, R w1 w2 → R w2 w3 → R w1 w3.
Hypothesis R_printed : ∀ w s, R w (printed s w).
Hypothesis R_switch : ∀ w network, R w (snd (switch_network network w)).
Hypothesis R_check : ∀ w, R w (snd (check_current_network w)).

Lemma R_then {A B} (m : M A) (k : A → M B) (w : world) :
  R w (snd (m w)) → (∀ a w', R w' (snd (k a w'))) → R w (snd (bind m k w)).
Proof.
  intros Hm Hk. unfold bind. destruct (m w) as [[a|e] w'] eqn:E; simpl in *.
  - eapply R_trans; [exact Hm|apply Hk].
  - exact Hm.
Qed.

Lemma R_print (s : pystr) (w : world) : R w (snd (print s w)).
Proof. apply R_printed. Qed.

Lemma loop_body_closed (next : option stdin_event) (w : world) :
  R w (snd (loop_body next w)).
Proof.
  unfold loop_body. apply R_then.
  { unfold input. apply R_then; [apply R_printed|].
    intros _ w'. destruct next as [[text|]|]; apply R_refl. }
  intros line w'.
  repeat case_decide; try (apply R_then; [|intros; apply R_refl]);
    auto using R_refl, R_print.
Qed.

Lemma iteration_closed (next : option stdin_event) (w : world) :
  R w (snd (iteration next w)).
Proof.
  unfold iteration, try_except.
  pose proof (loop_body_closed next w) as Hbody.
  destruct (loop_body next w) as [[ctl|e] w']; simpl in *; [done|].
  destruct e; try exact Hbody.
  eapply R_trans; [exact Hbody|].
  apply R_then; [apply R_print|intros; apply R_refl].
Qed.

Lemma while_true_closed (stdin : list stdin_event) (w : world) :
  R w (snd (while_true stdin w)).
Proof.
  revert w. induction stdin as [|ev rest IH]; intros w; cbn [while_true].
  - apply R_then; [apply iteration_closed|intros; apply R_refl].
  - apply R_then; [apply iteration_closed|].
    intros [|] w'; [apply IH|apply R_refl].
Qed.

Lemma interactive_mode_closed (stdin : list stdin_event) (w : world) :
  R w (snd (interactive_mode stdin w)).
Proof.
  unfold interactive_mode.
  repeat (apply R_then; [apply R_print|intros _ ?]).
  apply while_true_closed.
Qed.

(** [main] after the constructor has run. *)
Lemma main_closed (args : Namespace) (stdin : list stdin_event) (w : world) :
  R (snd (__init__ w)) (snd (main args stdin w)).
Proof.
  unfold main, bind at 1.
  destruct (__init__ w) as [[[]|e] w'] eqn:E; simpl; [|apply R_refl].
  destruct (truthy (network args)); [apply R_switch|].
  destruct (check args); [apply R_check|apply interactive_mode_closed].
Qed.

End Closure.

Lemma init_run (w : world) :
  __init__ w =
    (Returned tt, World (DirPresent (config_of (fs w))) (stdout w) (fs_calls w ++ [Makedirs])).
Proof.
  unfold __init__, os_makedirs, bind, log. simpl.
  by destruct (fs w).
Qed.

(** ** The file across runs of the program *)

Lemma read_outcome_config (f f' : filesystem) :
  config_of f = config_of f' → read_outcome f = read_outcome f'.
Proof. unfold read_outcome. by intros ->. Qed.

Lemma untouched_or_switched_step (f0 f : filesystem) (network : pystr) :
  (∀ d n, read_outcome f0 = Returned (VDict d) → n ∈ valid_networks →
          reloads (VDict (dict_setitem (str "network") (VStr n) d))) →
  untouched_or_switched f0 f →
  untouched_or_switched f0 (switch_fs network f).
Proof.
  intros Hre Hf. unfold switch_fs. case_bool_decide as Hn; [|done].
  destruct Hf as [Hsame|(d0 & m & Hread & Hm & ->)].
  - destruct f as [|c]; [by left|].
    rewrite (read_outcome_config _ _ Hsame).
    destruct (read_outcome f0) as [v|e] eqn:Hread; [|by left].
    destruct v; try by left.
    right. by eexists _, _.
  - rewrite read_outcome_written by by apply Hre.
    rewrite dict_setitem_setitem. right. by eexists _, _.
Qed.

Lemma main_untouched_or_switched
    (f0 : filesystem) (args : Namespace) (stdin : list stdin_event) (w : world) :
  (∀ d n, read_outcome f0 = Returned (VDict d) → n ∈ valid_networks →
          reloads (VDict (dict_setitem (str "network") (VStr n) d))) →
  untouched_or_switched f0 (fs w) →
  untouched_or_switched f0 (fs (snd (main args stdin w))).
Proof.
  intros Hre Hw.
  apply (main_closed (λ w w', untouched_or_switched f0 (fs w) →
                              untouched_or_switched f0 (fs w'))); try by auto.
  - intros w1 n. rewrite switch_network_fs. by apply untouched_or_switched_step.
  - intros w1. by rewrite check_current_network_fs.
  - rewrite init_run. simpl.
    destruct Hw as [Hsame|(d0 & m & Hread & Hm & Hfs)].
    + left. by rewrite <- Hsame.
    + right. rewrite Hfs. simpl. by eexists _, _.
Qed.

(** C7, as amended.  Every write the program makes to the config file
    writes the dump of a dictionary.  So after any sequence of runs of the
    program the file is either exactly as it was before the sequence, or it
    is what [json.dump] wrote for a dictionary, and then (given that
    [json.load] reads back what was dumped) a single JSON object.  *)
Theorem config_file_untouched_or_object (runs : list invocation) (w : world) :
  (∀ d network,
     fst (read_config w) = Returned (VDict d) →
     network ∈ valid_networks →
     reloads (VDict (dict_setitem (str "network") (VStr network) d))) →
  config_of (fs (run_all runs w)) = config_of (fs w)
  ∨ ∃ d, fs (run_all runs w) = DirPresent (Some (json_dump (VDict d)))
         ∧ holds_object (fs (run_all runs w)).
Proof.
  intros Hre. rewrite read_config_run in Hre. simpl in Hre.
  assert (Hinv : untouched_or_switched (fs w) (fs (run_all runs w))).
  { assert (H0 : untouched_or_switched (fs w) (fs w)) by by left.
    revert H0. generalize w at 2 4 as w1.
    induction runs as [|[args stdin] rest IH]; intros w1 Hw1; [done|].
    simpl. apply IH. by apply main_untouched_or_switched. }
  destruct Hinv as [Hsame|(d0 & m & Hread & Hm & Hfs)]; [by left|].
  right. eexists. split; [exact Hfs|].
  rewrite Hfs. eexists _, _. split; [done|]. by apply Hre.
Qed.

(** ** The interactive loop *)

Lemma printed_printed (s t : pystr) (w : world) :
  printed t (printed s w) = printed (s ++ t) w.
Proof. unfold printed. simpl. by rewrite app_assoc. Qed.

Lemma interactive_mode_run (stdin : list stdin_event) (w : world) :
  interactive_mode stdin w = while_true stdin (printed menu w).
Proof.
  unfold interactive_mode, bind, print, write_stdout, printed, menu. simpl.
  do 2 f_equal; same_lists.
Qed.

Lemma main_interactive (args : Namespace) (stdin : list stdin_event) (w : world) :
  truthy (network args) = None →
  check args = false →
  main args stdin w = while_true stdin (printed menu (snd (__init__ w))).
Proof.
  intros Hn Hc. unfold main, bind at 1. rewrite init_run, Hn, Hc. simpl.
  apply interactive_mode_run.
Qed.

(** A line that is none of the choices: the message, and the loop goes on. *)
Lemma iteration_invalid_choice (line : pystr) (w : world) :
  strip line ∉ [str "1"; str "2"; str "3"; str "4"] →
  iteration (Some (Line line)) w =
    (Returned Continue,
     printed (prompt ++ str "Invalid choice. Please try again." ++ [10]) w).
Proof.
  intros Hline. unfold iteration, try_except, loop_body.
  unfold bind at 1. unfold input, bind at 1. unfold write_stdout, ret. simpl.
  repeat (rewrite decide_False;
          [|intros E; apply Hline; rewrite E, !elem_of_cons; auto 10]).
  unfold bind, print, write_stdout, ret, printed, prompt. simpl.
  do 2 f_equal; same_lists.
Qed.

(** Choice 4 leaves the loop. *)
Lemma iteration_exit (line : pystr) (w : world) :
  strip line = str "4" →
  iteration (Some (Line line)) w = (Returned Break, printed prompt w).
Proof.
  intros Hline. unfold iteration, try_except, loop_body.
  unfold bind at 1. unfold input, bind at 1. unfold write_stdout, ret. simpl.
  rewrite Hline.
  rewrite !decide_False by (intros E; by vm_compute in E).
  by rewrite decide_True.
Qed.

(** C8, as amended.  In the loop, for every line read whose form after
    [strip] is none of "1", "2", "3": if it is "4" the loop ends there,
    without a switch or a check; otherwise the program prints the
    invalid-choice message and goes on to the next input with the file
    system untouched and no filesystem call made. *)
Theorem invalid_choice_stays_in_menu
    (line : pystr) (rest : list stdin_event) (w : world) :
  strip line ∉ [str "1"; str "2"; str "3"] →
  while_true (Line line :: rest) w =
    if decide (strip line = str "4") then
      (Returned tt,
       World (fs w) (stdout w ++ str "Enter your choice (1-4): ") (fs_calls w))
    else
      while_true rest
        (World (fs w)
               (stdout w ++ str "Enter your choice (1-4): "
                ++ str "Invalid choice. Please try again." ++ [10])
               (fs_calls w)).
Proof.
  intros Hline. cbn [while_true]. unfold bind at 1.
  case_decide as H4.
  - by rewrite iteration_exit.
  - rewrite iteration_invalid_choice; [done|].
    intros Hin. apply H4. rewrite !elem_of_cons, elem_of_nil in Hin.
    rewrite !elem_of_cons, elem_of_nil in Hline. tauto.
Qed.

Lemma while_true_reaches stdin w stdin' w' :
  loop_reaches stdin w stdin' w' → while_true stdin w = while_true stdin' w'.
Proof.
  induction 1 as [|ev stdin w w1 stdin' w' Hit _ IH]; [done|].
  cbn [while_true]. unfold bind at 1. by rewrite Hit.
Qed.

(** [KeyboardInterrupt] anywhere in the body of the [try]. *)
Lemma while_true_interrupted (stdin : list stdin_event) (w w2 : world) :
  loop_body (head stdin) w = (Raised KeyboardInterrupt, w2) →
  while_true stdin w = (Returned tt, printed cancelled w2).
Proof.
  intros Hbody.
  assert (Hit : iteration (head stdin) w = (Returned Break, printed cancelled w2)).
  { unfold iteration, try_except. rewrite Hbody.
    unfold bind, print, write_stdout, ret, printed, cancelled. simpl.
    do 2 f_equal; same_lists. }
  destruct stdin as [|ev rest]; cbn [while_true]; unfold bind at 1;
    simpl in Hit; by rewrite Hit.
Qed.

(** In this model the interrupt comes while [input] waits. *)
Lemma loop_body_interrupt (w : world) :
  loop_body (Some Interrupt) w = (Raised KeyboardInterrupt, printed prompt w).
Proof. reflexivity. Qed.

(** C9.  In interactive mode, at whatever iteration the loop has come to,
    when [KeyboardInterrupt] is raised in the body of the [try] the program
    prints the cancellation message, leaves the loop, and [main] returns:
    the exit status is 0. *)
Theorem keyboard_interrupt_exits_cleanly
    (args : Namespace) (stdin stdin' : list stdin_event) (w w1 w2 : world) :
  truthy (network args) = None →
  check args = false →
  loop_reaches stdin (printed menu (snd (__init__ w))) stdin' w1 →
  loop_body (head stdin') w1 = (Raised KeyboardInterrupt, w2) →
  main args stdin w =
    (Returned tt,
     World (fs w2) (stdout w2 ++ [10] ++ str "Operation cancelled." ++ [10]) (fs_calls w2))
  ∧ exit_status (fst (main args stdin w)) = 0%Z.
Proof.
  intros Hn Hc Hreach Hbody.
  assert (main args stdin w = (Returned tt, printed cancelled w2)) as ->; [|done].
  rewrite main_interactive by done.
  rewrite (while_true_reaches _ _ _ _ Hreach).
  by apply while_true_interrupted.
Qed.

(** ** The constructor *)

Lemma switch_network_calls (network : pystr) (w : world) :
  ∃ later, fs_calls (snd (switch_network network w)) = fs_calls w ++ later.
Proof.
  destruct (decide (network ∈ valid_networks)) as [Hn|Hn].
  - destruct (fs w) as [|c] eqn:Hfs.
    { rewrite switch_network_no_dir by done. by eexists. }
    destruct (read_outcome (fs w)) as [v|e] eqn:Hread.
    + destruct v;
        try (erewrite switch_network_not_dict; [by eexists|done|done|done]).
      erewrite switch_network_run; [by eexists|done|done|done].
    + erewrite switch_network_read_raises; [by eexists|done|done].
  - rewrite switch_network_invalid_run by done. exists []. simpl. by rewrite app_nil_r.
Qed.

Lemma check_current_network_calls (w : world) :
  ∃ later, fs_calls (snd (check_current_network w)) = fs_calls w ++ later.
Proof.
  unfold check_current_network. unfold bind at 1. rewrite read_config_run.
  destruct (read_outcome (fs w)) as [v|e]; [|by eexists].
  destruct v; by eexists.
Qed.

Lemma switch_fs_dir (network : pystr) (f : filesystem) :
  f ≠ DirAbsent → switch_fs network f ≠ DirAbsent.
Proof.
  intros Hf. unfold switch_fs. case_bool_decide; [|done].
  destruct f as [|c]; [done|].
  destruct (read_outcome (DirPresent c)) as [v|e]; [|done].
  by destruct v.
Qed.

(** C10.  Every run of [main] starts by constructing the switcher, for a
    switch, for [--check] and for the menu alike; the constructor makes the
    directory when it is absent and touches nothing else, above all not the
    config file.  So [makedirs] is the first filesystem call of the run,
    before any reading or writing of the file, the directory is there when
    the run ends, and a run with [--check] leaves the directory with the
    config file exactly as it was (absent if it was absent). *)
Theorem constructor_creates_directory_first
    (args : Namespace) (stdin : list stdin_event) (w : world) :
  __init__ w =
    (Returned tt,
     World (DirPresent (config_of (fs w))) (stdout w) (fs_calls w ++ [Makedirs]))
  ∧ (∃ later, fs_calls (snd (main args stdin w)) = fs_calls w ++ Makedirs :: later)
  ∧ fs (snd (main args stdin w)) ≠ DirAbsent
  ∧ fs (snd (main {| network := None; check := true |} stdin w))
    = DirPresent (config_of (fs w)).
Proof.
  split; [apply init_run|]. split; [|split].
  - destruct (main_closed (λ w w', ∃ later, fs_calls w' = fs_calls w ++ later))
      with (args := args) (stdin := stdin) (w := w) as [later Hlater].
    + intros w1. exists []. by rewrite app_nil_r.
    + intros w1 w2 w3 [l1 H1] [l2 H2]. exists (l1 ++ l2). by rewrite H2, H1, app_assoc.
    + intros w1 s. exists []. simpl. by rewrite app_nil_r.
    + intros w1 n. apply switch_network_calls.
    + apply check_current_network_calls.
    + rewrite init_run in Hlater. simpl in Hlater.
      exists later. by rewrite Hlater, <- app_assoc.
  - apply (main_closed (λ w w', fs w ≠ DirAbsent → fs w' ≠ DirAbsent)); try by auto.
    + intros w1 n. rewrite switch_network_fs. apply switch_fs_dir.
    + intros w1. by rewrite check_current_network_fs.
    + by rewrite init_run.
  - unfold main, bind at 1. rewrite init_run. simpl.
    by rewrite check_current_network_fs.
Qed.

End Properties.

(** ** Runs on concrete files, with the CPython instance *)

#[local] Existing Instance CPython.runtime.

(** The scenarios of the specification. *)
Example fresh_home_switch_testnet :
  let run := main (RT := CPython.runtime)
               {| network := Some (str "testnet"); check := false |} [] empty_home in
  exit_status (fst run) = 0%Z
  ∧ fs (snd run) = DirPresent (Some (quoted "{
    'network': 'testnet'
}"))
  ∧ fs_calls (snd run) = [Makedirs; OpenRead; OpenWrite].
Proof. by vm_compute. Qed.

Example extra_key_is_kept :
  fs (snd (switch_network (RT := CPython.runtime) (str "testnet")
             (with_file mainnet_and_extra)))
  = DirPresent (Some (quoted "{
    'network': 'testnet',
    'extra': 'keepme'
}")).
Proof. by vm_compute. Qed.

Example load_mainnet_and_extra :
  CPython.load mainnet_and_extra
  = Loaded (VDict [(str "network", VStr (str "mainnet"));
                   (str "extra", VStr (str "keepme"))]).
Proof. by vm_compute. Qed.

(** *** C1 *)

(** C1 fails as stated: with the JSON array [[]] in the file, a switch to
    "mainnet" does not complete, the item assignment raises [TypeError]. *)
Lemma switch_network_raises_on_json_array :
  str "mainnet" ∈ valid_networks
  ∧ switch_network (RT := CPython.runtime) (str "mainnet") (with_file "[]")
    = (Raised TypeError, World (DirPresent (Some "[]"%string)) [] [OpenRead]).
Proof. split; [compute_done|by vm_compute]. Qed.

Lemma switch_network_then_read_config_witness :
  str "testnet" ∈ valid_networks
  ∧ ∃ w' w'' d',
      switch_network (RT := CPython.runtime) (str "testnet") (with_file "not json")
      = (Returned tt, w')
      ∧ read_config w' = (Returned (VDict d'), w'')
      ∧ dict_lookup (str "network") d' = Some (VStr (str "testnet")).
Proof.
  assert (Hn : str "testnet" ∈ valid_networks) by compute_done.
  split; [exact Hn|].
  apply (switch_network_then_read_config (RT := CPython.runtime)
           (with_file "not json") (str "testnet") (Some "not json"%string)
           [(str "network", VStr (str "Not set"))] Hn).
  - reflexivity.
  - vm_compute. reflexivity.
  - vm_compute. reflexivity.
Defined.

(** *** C2 *)

Lemma switch_network_rejects_invalid_witness :
  (str "invalidnet" ∉ valid_networks)
  ∧ exit_status (fst (switch_network (RT := CPython.runtime) (str "invalidnet")
                        (with_file mainnet_and_extra))) = 1%Z.
Proof.
  assert (Hn : str "invalidnet" ∉ valid_networks) by compute_done.
  split; [exact Hn|].
  exact (proj1 (proj2 (switch_network_rejects_invalid (RT := CPython.runtime)
                         (with_file mainnet_and_extra) (str "invalidnet") Hn))).
Defined.

(** *** C3 *)

(** C3 fails as stated: the single byte 0xFF is not valid JSON, and
    [read_config] raises [UnicodeDecodeError] instead of returning the
    default. *)
Lemma read_config_raises_on_undecodable_bytes :
  (∀ v, json_load (PyRuntime := CPython.runtime) (String "255" EmptyString) ≠ Loaded v)
  ∧ read_config (RT := CPython.runtime) (with_file (String "255" EmptyString))
    = (Raised UnicodeDecodeError,
       World (DirPresent (Some (String "255" EmptyString))) [] [OpenRead]).
Proof. split; [intros v; by vm_compute|by vm_compute]. Qed.

Lemma read_config_default_witness :
  json_load (PyRuntime := CPython.runtime) "{'network': 'mainnet'}"%string = NotJSON
  ∧ read_config (RT := CPython.runtime) (with_file "{'network': 'mainnet'}")
    = (Returned (VDict [(str "network", VStr (str "Not set"))]),
       World (DirPresent (Some "{'network': 'mainnet'}"%string)) [] [OpenRead]).
Proof.
  assert (H : json_load (PyRuntime := CPython.runtime) "{'network': 'mainnet'}"%string = NotJSON)
    by (vm_compute; reflexivity).
  split; [exact H|].
  apply (read_config_default (RT := CPython.runtime) (with_file "{'network': 'mainnet'}")).
  right. exists "{'network': 'mainnet'}"%string. split; [reflexivity|exact H].
Defined.

(** *** C4 *)

Lemma switch_network_preserves_unknown_keys_witness :
  ∃ w' d',
    switch_network (RT := CPython.runtime) (str "testnet") (with_file mainnet_and_extra)
    = (Returned tt, w')
    ∧ fs w' = DirPresent (Some (CPython.dump (VDict d')))
    ∧ CPython.load (CPython.dump (VDict d')) = Loaded (VDict d')
    ∧ dict_keys d' = [str "network"; str "extra"]
    ∧ dict_lookup (str "network") d' = Some (VStr (str "testnet"))
    ∧ ∀ k, k ≠ str "network" →
           dict_lookup k d'
           = dict_lookup k [(str "network", VStr (str "mainnet"));
                            (str "extra", VStr (str "keepme"))].
Proof.
  apply (switch_network_preserves_unknown_keys (RT := CPython.runtime)
           (with_file mainnet_and_extra) (str "testnet") mainnet_and_extra
           [(str "network", VStr (str "mainnet")); (str "extra", VStr (str "keepme"))]).
  - compute_done.
  - reflexivity.
  - vm_compute. reflexivity.
  - exists (VStr (str "mainnet")). vm_compute. reflexivity.
  - vm_compute. reflexivity.
Defined.

(** *** C5 *)

Lemma switch_network_idempotent_witness :
  fs (snd (switch_network (RT := CPython.runtime) (str "mainnet")
             (snd (switch_network (RT := CPython.runtime) (str "mainnet") empty_home))))
  = fs (snd (switch_network (RT := CPython.runtime) (str "mainnet") empty_home))
  ∧ fs (snd (switch_network (RT := CPython.runtime) (str "testnet")
               (snd (switch_network (RT := CPython.runtime) (str "testnet")
                       (with_file mainnet_and_extra)))))
    = fs (snd (switch_network (RT := CPython.runtime) (str "testnet")
                 (with_file mainnet_and_extra))).
Proof.
  split.
  - apply (switch_network_idempotent (RT := CPython.runtime) empty_home (str "mainnet")).
    intros d Hd. vm_compute in Hd. injection Hd as <-. vm_compute. reflexivity.
  - apply (switch_network_idempotent (RT := CPython.runtime)
             (with_file mainnet_and_extra) (str "testnet")).
    intros d Hd. vm_compute in Hd. injection Hd as <-. vm_compute. reflexivity.
Defined.

(** *** C6 *)

Lemma check_current_network_missing_file_witness :
  check_current_network (RT := CPython.runtime) (World (DirPresent None) [] [])
  = (Returned tt,
     World (DirPresent None) (str "Current network: Not set" ++ [10]) [OpenRead]).
Proof.
  exact (check_current_network_missing_file (RT := CPython.runtime)
           (World (DirPresent None) [] []) eq_refl).
Defined.

(** *** C7 *)

(** C7 fails as stated: a file holding the JSON array [[]] is still that
    array after a run that switches to "mainnet", a run with [--check]
    and a run of the menu that asks for "testnet"; no run could rewrite it. *)
Lemma json_array_survives_switch :
  let runs :=
    [({| network := Some (str "mainnet"); check := false |}, []);
     ({| network := None; check := true |}, []);
     ({| network := None; check := false |}, [Line (str "2"); Line (str "4")])] in
  fs (run_all runs (with_file "[]")) = DirPresent (Some "[]"%string)
  ∧ ¬ holds_object (fs (run_all runs (with_file "[]"))).
Proof.
  split; [by vm_compute|].
  intros (content & d & Hcontent & Hload).
  vm_compute in Hcontent. injection Hcontent as <-.
  by vm_compute in Hload.
Qed.

Lemma config_file_untouched_or_object_witness :
  let runs :=
    [({| network := None; check := true |}, []);
     ({| network := Some (str "testnet"); check := false |}, []);
     ({| network := None; check := false |}, [Line (str "1"); Line (str "4")])] in
  config_of (fs (run_all runs empty_home)) = config_of (fs empty_home)
  ∨ ∃ d, fs (run_all runs empty_home) = DirPresent (Some (CPython.dump (VDict d)))
         ∧ holds_object (fs (run_all runs empty_home)).
Proof.
  apply (config_file_untouched_or_object (RT := CPython.runtime)).
  intros d n Hd Hn. vm_compute in Hd. injection Hd as <-.
  apply elem_of_cons in Hn as [->|Hn]; [vm_compute; reflexivity|].
  apply elem_of_cons in Hn as [->|Hn]; [vm_compute; reflexivity|].
  by apply elem_of_nil in Hn.
Defined.

Example three_runs_leave_mainnet :
  fs (run_all
        [({| network := None; check := true |}, []);
         ({| network := Some (str "testnet"); check := false |}, []);
         ({| network := None; check := false |}, [Line (str "1"); Line (str "4")])]
        empty_home)
  = DirPresent (Some (quoted "{
    'network': 'mainnet'
}")).
Proof. by vm_compute. Qed.

(** *** C8 *)

(** C8 fails as stated: the line [" 1"] is none of "1", "2", "3", "4", yet
    the iteration that reads it switches to mainnet; [strip] is applied
    before the comparison. *)
Lemma padded_choice_switches :
  (str " 1" ∉ [str "1"; str "2"; str "3"; str "4"])
  ∧ fst (iteration (Some (Line (str " 1"))) (World (DirPresent None) [] []))
    = Returned Continue
  ∧ fs (snd (iteration (Some (Line (str " 1"))) (World (DirPresent None) [] [])))
    = DirPresent (Some (quoted "{
    'network': 'mainnet'
}"))
  ∧ fs_calls (snd (iteration (Some (Line (str " 1"))) (World (DirPresent None) [] [])))
    = [OpenRead; OpenWrite].
Proof. split; [compute_done|by vm_compute]. Qed.

Lemma invalid_choice_stays_in_menu_witness :
  (strip (str " mainnet ") ∉ [str "1"; str "2"; str "3"])
  ∧ while_true [Line (str " mainnet "); Line (str "4 ")] (with_file mainnet_and_extra)
    = (Returned tt,
       World (DirPresent (Some mainnet_and_extra))
             (str "Enter your choice (1-4): "
              ++ str "Invalid choice. Please try again." ++ [10]
              ++ str "Enter your choice (1-4): ")
             []).
Proof.
  assert (H1 : strip (str " mainnet ") ∉ [str "1"; str "2"; str "3"]) by compute_done.
  assert (H2 : strip (str "4 ") ∉ [str "1"; str "2"; str "3"]) by compute_done.
  split; [exact H1|].
  rewrite (invalid_choice_stays_in_menu (RT := CPython.runtime)
             (str " mainnet ") [Line (str "4 ")] (with_file mainnet_and_extra) H1).
  rewrite decide_False by (by vm_compute).
  rewrite (invalid_choice_stays_in_menu (RT := CPython.runtime) (str "4 ") [] _ H2).
  rewrite decide_True by (by vm_compute).
  by vm_compute.
Defined.

(** *** C9 *)

Lemma keyboard_interrupt_exits_cleanly_witness :
  let args := {| network := None; check := false |} in
  let stdin := [Line (str "3"); Interrupt; Line (str "1")] in
  exit_status (fst (main args stdin (with_file mainnet_and_extra))) = 0%Z
  ∧ fs (snd (main args stdin (with_file mainnet_and_extra)))
    = DirPresent (Some mainnet_and_extra).
Proof.
  intros args stdin.
  destruct (keyboard_interrupt_exits_cleanly (RT := CPython.runtime)
              args stdin [Interrupt; Line (str "1")] (with_file mainnet_and_extra)
              (printed (prompt ++ str "Current network: mainnet" ++ [10])
                 (logged [OpenRead]
                    (printed menu (snd (__init__ (with_file mainnet_and_extra))))))
              (printed prompt
                 (printed (prompt ++ str "Current network: mainnet" ++ [10])
                    (logged [OpenRead]
                       (printed menu (snd (__init__ (with_file mainnet_and_extra)))))))
              eq_refl eq_refl) as [Hmain Hexit].
  - eapply reaches_next; [|apply reaches_here]. by vm_compute.
  - apply loop_body_interrupt.
  - split; [exact Hexit|]. rewrite Hmain. by vm_compute.
Defined.


(** * Further properties of the methods *)

Section Further.

Context {RT : PyRuntime}.

#[local] Opaque str.

Ltac reassoc :=
  repeat first [rewrite <- app_assoc | progress simpl]; try reflexivity.

Lemma valid_network_truthy (n : pystr) :
  n ∈ valid_networks → truthy (Some n) = Some n.
Proof.
  intros Hn. apply elem_of_cons in Hn as [->|Hn]; [by vm_compute|].
  apply elem_of_cons in Hn as [->|Hn]; [by vm_compute|].
  by apply elem_of_nil in Hn.
Qed.

Lemma read_outcome_of_read_config (w : world) (o : outcome value) :
  fst (read_config w) = o → read_outcome (fs w) = o.
Proof. by rewrite read_config_run. Qed.

(** [read_config], in every world and whatever it finds: it writes nothing
    and prints nothing, its one filesystem call is the open for reading, and
    neither of the two exceptions it catches reaches the caller.  The
    default it returns is not put on disk. *)
Theorem read_config_only_reads (w : world) :
  fs (snd (read_config w)) = fs w
  ∧ stdout (snd (read_config w)) = stdout w
  ∧ fs_calls (snd (read_config w)) = fs_calls w ++ [OpenRead]
  ∧ fst (read_config w) ≠ Raised FileNotFoundError
  ∧ fst (read_config w) ≠ Raised JSONDecodeError.
Proof.
  rewrite read_config_run. simpl. repeat split; try done.
  - unfold read_outcome. destruct (config_of (fs w)) as [content|]; [|done].
    by destruct (json_load content).
  - unfold read_outcome. destruct (config_of (fs w)) as [content|]; [|done].
    by destruct (json_load content).
Qed.

(** [write_config] replaces the file, whatever it held, by the dump of the
    value given, and [read_config] then returns that value (given that
    [json.load] reads the dump back). *)
Theorem write_config_then_read_config
    (w : world) (c : option bytes) (config : value) :
  fs w = DirPresent c →
  reloads config →
  write_config config w =
    (Returned tt,
     World (DirPresent (Some (json_dump config))) (stdout w) (fs_calls w ++ [OpenWrite]))
  ∧ fst (read_config (snd (write_config config w))) = Returned config.
Proof.
  intros Hfs Hre.
  assert (Hrun : write_config config w =
    (Returned tt,
     World (DirPresent (Some (json_dump config))) (stdout w) (fs_calls w ++ [OpenWrite]))).
  { destruct w as [f out calls]. simpl in Hfs. subst f. reflexivity. }
  split; [exact Hrun|].
  rewrite Hrun, read_config_run. simpl. by apply read_outcome_written.
Qed.

(** A switch to a valid network when the file is missing or is text that is
    not JSON, run through [main] (whether or not [--check] is given too):
    the directory is made if need be, the file becomes the dump of the
    one-key dictionary with the network chosen, the two confirmation lines
    are printed and [main] returns. *)
Theorem main_switch_writes_fresh_config
    (w : world) (n : pystr) (chk : bool) (stdin : list stdin_event) :
  n ∈ valid_networks →
  config_of (fs w) = None
  ∨ (∃ content, config_of (fs w) = Some content ∧ json_load content = NotJSON) →
  main {| network := Some n; check := chk |} stdin w =
    (Returned tt,
     World (DirPresent (Some (json_dump (VDict [(str "network", VStr n)]))))
           (stdout w ++ [9989] ++ str " Successfully set network to " ++ n ++ [10]
            ++ str "Note: You may need to restart your Bittensor services to apply this change."
            ++ [10])
           (fs_calls w ++ [Makedirs; OpenRead; OpenWrite])).
Proof.
  intros Hn Hfile. unfold main, bind at 1. rewrite init_run. cbn [network check].
  rewrite valid_network_truthy by done.
  rewrite (switch_network_run n _ (config_of (fs w))
             [(str "network", VStr (str "Not set"))]); [|done|reflexivity|].
  - simpl. rewrite decide_True by done. unfold success_message.
    do 2 f_equal; reassoc.
  - unfold read_outcome. simpl.
    destruct Hfile as [->|(content & -> & ->)]; reflexivity.
Qed.

(** A switch when the file holds a JSON value that is not an object raises
    [TypeError] at the item assignment: nothing is written and nothing is
    printed. *)
Theorem switch_network_type_error
    (w : world) (network : pystr) (content : bytes) (v : value) :
  network ∈ valid_networks →
  config_of (fs w) = Some content →
  json_load content = Loaded v →
  (∀ d, v ≠ VDict d) →
  switch_network network w =
    (Raised TypeError, World (fs w) (stdout w) (fs_calls w ++ [OpenRead])).
Proof.
  intros Hn Hc Hload Hv.
  apply (switch_network_not_dict network w v); [done| |done].
  unfold read_outcome. by rewrite Hc, Hload.
Qed.

(** When the bytes of the file are not text, [switch_network] and
    [check_current_network] both let [UnicodeDecodeError] through, after
    the read and before anything is written or printed. *)
Theorem undecodable_file_stops_both (w : world) (network : pystr) (content : bytes) :
  network ∈ valid_networks →
  config_of (fs w) = Some content →
  json_load content = NotText →
  switch_network network w =
    (Raised UnicodeDecodeError, World (fs w) (stdout w) (fs_calls w ++ [OpenRead]))
  ∧ check_current_network w =
    (Raised UnicodeDecodeError, World (fs w) (stdout w) (fs_calls w ++ [OpenRead])).
Proof.
  intros Hn Hc Hload.
  assert (Hread : read_outcome (fs w) = Raised UnicodeDecodeError).
  { unfold read_outcome. by rewrite Hc, Hload. }
  split; [by apply switch_network_read_raises|].
  unfold check_current_network. unfold bind at 1. by rewrite read_config_run, Hread.
Qed.

(** A switch when the directory is not there: reading falls back to the
    default, but opening the file for writing raises [FileNotFoundError];
    nothing is created and nothing is printed. *)
Theorem switch_network_without_directory (w : world) (network : pystr) :
  network ∈ valid_networks →
  fs w = DirAbsent →
  switch_network network w =
    (Raised FileNotFoundError,
     World DirAbsent (stdout w) (fs_calls w ++ [OpenRead; OpenWrite])).
Proof.
  intros Hn Hfs. rewrite switch_network_no_dir by done.
  unfold logged. by rewrite Hfs.
Qed.

(** Of two switches in a row the last one decides: the file is as if only
    the second had been made. *)
Theorem switch_network_last_wins
    (w : world) (a b : pystr) (c : option bytes) (d : dict) :
  a ∈ valid_networks →
  b ∈ valid_networks →
  fs w = DirPresent c →
  fst (read_config w) = Returned (VDict d) →
  reloads (VDict (dict_setitem (str "network") (VStr a) d)) →
  fs (snd (switch_network b (snd (switch_network a w))))
  = fs (snd (switch_network b w)).
Proof.
  intros Ha Hb Hfs Hread Hre. apply read_outcome_of_read_config in Hread.
  rewrite !switch_network_fs. unfold switch_fs.
  rewrite !bool_decide_eq_true_2 by done.
  rewrite Hfs in *. rewrite Hread.
  rewrite read_outcome_written by done.
  by rewrite dict_setitem_setitem.
Qed.

(** After a switch, [check_current_network] prints the network switched to. *)
Theorem switch_network_then_check
    (w : world) (network : pystr) (c : option bytes) (d : dict) :
  network ∈ valid_networks →
  fs w = DirPresent c →
  fst (read_config w) = Returned (VDict d) →
  reloads (VDict (dict_setitem (str "network") (VStr network) d)) →
  ∃ w1,
    switch_network network w = (Returned tt, w1)
    ∧ check_current_network w1 =
        (Returned tt,
         World (fs w1)
               (stdout w1 ++ str "Current network: " ++ network ++ [10])
               (fs_calls w1 ++ [OpenRead])).
Proof.
  intros Hn Hfs Hread Hre. apply read_outcome_of_read_config in Hread.
  eexists. split; [by eapply switch_network_run|].
  erewrite check_current_network_run; [|simpl; by apply read_outcome_written].
  unfold dict_get. by rewrite dict_lookup_setitem_eq.
Qed.

(** [check_current_network], in every world and whatever its outcome,
    leaves the file system as it is; its one filesystem call is the open
    for reading. *)
Theorem check_current_network_only_reads (w : world) :
  fs (snd (check_current_network w)) = fs w
  ∧ fs_calls (snd (check_current_network w)) = fs_calls w ++ [OpenRead].
Proof.
  split; [apply check_current_network_fs|].
  unfold check_current_network. unfold bind at 1. rewrite read_config_run.
  destruct (read_outcome (fs w)) as [v|e]; [|done].
  by destruct v.
Qed.


(** [check_current_network] on a file holding a JSON value that is not an
    object: [.get] raises [AttributeError] and nothing is printed. *)
Theorem check_current_network_attribute_error
    (w : world) (content : bytes) (v : value) :
  config_of (fs w) = Some content →
  json_load content = Loaded v →
  (∀ d, v ≠ VDict d) →
  check_current_network w =
    (Raised AttributeError, World (fs w) (stdout w) (fs_calls w ++ [OpenRead])).
Proof.
  intros Hc Hload Hv. unfold check_current_network. unfold bind at 1.
  rewrite read_config_run. unfold read_outcome. rewrite Hc, Hload.
  unfold bind, get, logged. destruct v; try reflexivity. by destruct (Hv items).
Qed.

End Further.

(** * Further properties of the menu and of runs of the program *)

Section FurtherLoop.

Context {RT : PyRuntime}.

#[local] Opaque str.

Ltac reassoc' :=
  repeat first [rewrite <- app_assoc | progress simpl]; try reflexivity.

(** The body of the loop on a line: the prompt is written, then the
    stripped line selects the branch. *)
Lemma loop_body_line (line : pystr) (w : world) :
  loop_body (Some (Line line)) w =
    (if decide (strip line = str "1") then
       switch_network (str "mainnet") ;; ret Continue
     else if decide (strip line = str "2") then
       switch_network (str "testnet") ;; ret Continue
     else if decide (strip line = str "3") then
       check_current_network ;; ret Continue
     else if decide (strip line = str "4") then
       ret Break
     else
       print (str "Invalid choice. Please try again.") ;; ret Continue)
      (printed prompt w).
Proof. reflexivity. Qed.

Lemma iteration_of_returned (next : option stdin_event) (w w' : world) (ctl : loop_ctl) :
  loop_body next w = (Returned ctl, w') → iteration next w = (Returned ctl, w').
Proof. intros H. unfold iteration, try_except. by rewrite H. Qed.

Lemma iteration_of_raised (next : option stdin_event) (w w' : world) (e : exn) :
  e ≠ KeyboardInterrupt →
  loop_body next w = (Raised e, w') → iteration next w = (Raised e, w').
Proof.
  intros He H. unfold iteration, try_except. rewrite H. by destruct e.
Qed.

(** Choices 1 and 2 of the menu, when [read_config] returns a dictionary:
    the switch is made as by [switch_network] and the loop goes on to the
    next input. *)
Theorem menu_choice_switches
    (line n : pystr) (rest : list stdin_event) (w : world)
    (c : option bytes) (d : dict) :
  (strip line = str "1" ∧ n = str "mainnet")
  ∨ (strip line = str "2" ∧ n = str "testnet") →
  fs w = DirPresent c →
  fst (read_config w) = Returned (VDict d) →
  while_true (Line line :: rest) w =
    while_true rest
      (World (DirPresent (Some (json_dump (VDict (dict_setitem (str "network") (VStr n) d)))))
             (stdout w ++ str "Enter your choice (1-4): "
              ++ [9989] ++ str " Successfully set network to " ++ n ++ [10]
              ++ str "Note: You may need to restart your Bittensor services to apply this change."
              ++ [10])
             (fs_calls w ++ [OpenRead; OpenWrite])).
Proof.
  intros Hline Hfs Hread. rewrite read_config_run in Hread. simpl in Hread.
  assert (Hn : n ∈ valid_networks).
  { unfold valid_networks.
    destruct Hline as [[_ ->]|[_ ->]]; rewrite !elem_of_cons; auto. }
  assert (Hbody : loop_body (Some (Line line)) w =
            (x <- switch_network n ;; ret Continue) (printed prompt w)).
  { rewrite loop_body_line. destruct Hline as [[-> ->]|[-> ->]].
    - by rewrite decide_True.
    - rewrite decide_False by (intros E; by vm_compute in E). by rewrite decide_True. }
  cbn [while_true]. unfold bind at 1.
  erewrite iteration_of_returned.
  2:{ rewrite Hbody. unfold bind at 1.
      rewrite (switch_network_run n (printed prompt w) c d) by done. reflexivity. }
  f_equal. unfold printed, prompt, success_message. simpl. f_equal. reassoc'.
Qed.


(** Only [KeyboardInterrupt] is caught in the loop: any other exception
    raised in the body ends the loop, in the world where it was raised,
    and goes on to the caller. *)
Theorem other_exceptions_end_loop
    (stdin : list stdin_event) (w w' : world) (e : exn) :
  e ≠ KeyboardInterrupt →
  loop_body (head stdin) w = (Raised e, w') →
  while_true stdin w = (Raised e, w').
Proof.
  intros He Hbody. apply iteration_of_raised in Hbody; [|done].
  destruct stdin as [|ev rest]; cbn [while_true]; unfold bind at 1;
    simpl in Hbody; by rewrite Hbody.
Qed.

Lemma while_true_eof (stdin : list stdin_event) (w : world) :
  Forall (λ ev, ∃ line, ev = Line line
                        ∧ strip line ∉ [str "1"; str "2"; str "3"; str "4"]) stdin →
  ∃ out, while_true stdin w = (Raised EOFError, printed out w).
Proof.
  intros Hall. revert w. induction Hall as [|ev rest (line & -> & Hline) _ IH]; intros w.
  - by exists prompt.
  - cbn [while_true]. unfold bind at 1.
    rewrite iteration_invalid_choice by done.
    destruct (IH (printed (prompt ++ str "Invalid choice. Please try again." ++ [10]) w))
      as [out Hout].
    rewrite Hout, printed_printed. by eexists.
Qed.

(** A menu session in which every line is an invalid choice, the empty
    session included, ends when standard input does: [input] raises
    [EOFError], which nothing catches, so the exit status is 1.  Only the
    constructor touched the file system. *)
Theorem eof_ends_session
    (args : Namespace) (stdin : list stdin_event) (w : world) :
  truthy (network args) = None →
  check args = false →
  Forall (λ ev, ∃ line, ev = Line line
                        ∧ strip line ∉ [str "1"; str "2"; str "3"; str "4"]) stdin →
  fst (main args stdin w) = Raised EOFError
  ∧ exit_status (fst (main args stdin w)) = 1%Z
  ∧ fs (snd (main args stdin w)) = DirPresent (config_of (fs w))
  ∧ fs_calls (snd (main args stdin w)) = fs_calls w ++ [Makedirs].
Proof.
  intros Hn Hc Hall. rewrite main_interactive by done.
  destruct (while_true_eof stdin (printed menu (snd (__init__ w))) Hall) as [out ->].
  by rewrite init_run.
Qed.

Lemma iteration_without_switch_fs (next : option stdin_event) (w : world) :
  (∀ line, next = Some (Line line) → strip line ≠ str "1" ∧ strip line ≠ str "2") →
  fs (snd (iteration next w)) = fs w.
Proof.
  intros Hnext. destruct next as [[line|]|]; [|done|done].
  destruct (Hnext line eq_refl) as [H1 H2].
  unfold iteration, try_except. rewrite loop_body_line.
  rewrite (decide_False (P := strip line = str "1")) by done.
  rewrite (decide_False (P := strip line = str "2")) by done.
  repeat case_decide; try done.
  unfold bind at 1.
  pose proof (check_current_network_fs (printed prompt w)) as Hfs.
  destruct (check_current_network (printed prompt w)) as [[[]|e] w1]; simpl in *; [done|].
  by destruct e.
Qed.

Lemma while_true_without_switch_fs (stdin : list stdin_event) (w : world) :
  Forall (λ ev, ∀ line, ev = Line line → strip line ≠ str "1" ∧ strip line ≠ str "2")
    stdin →
  fs (snd (while_true stdin w)) = fs w.
Proof.
  intros Hall. revert w. induction Hall as [|ev rest Hev _ IH]; intros w.
  - cbn [while_true]. unfold bind at 1.
    pose proof (iteration_without_switch_fs None w) as Hfs.
    destruct (iteration None w) as [[ctl|e] w1]; simpl in *; by apply Hfs.
  - cbn [while_true]. unfold bind at 1.
    pose proof (iteration_without_switch_fs (Some ev) w) as Hfs.
    destruct (iteration (Some ev) w) as [[[|]|e] w1]; simpl in *.
    + rewrite IH. apply Hfs. intros line [= ->]. by apply Hev.
    + apply Hfs. intros line [= ->]. by apply Hev.
    + apply Hfs. intros line [= ->]. by apply Hev.
Qed.

(** A menu session in which no line is choice 1 or 2 never changes the
    config file, however the session ends (choice 4, Ctrl-C, end of input
    or an exception): after it the directory exists and the file is as it
    was. *)
Theorem session_without_switch_keeps_file
    (args : Namespace) (stdin : list stdin_event) (w : world) :
  truthy (network args) = None →
  check args = false →
  Forall (λ ev, ∀ line, ev = Line line → strip line ≠ str "1" ∧ strip line ≠ str "2")
    stdin →
  fs (snd (main args stdin w)) = DirPresent (config_of (fs w)).
Proof.
  intros Hn Hc Hall. rewrite main_interactive by done.
  rewrite while_true_without_switch_fs by done.
  by rewrite init_run.
Qed.

Lemma run_all_untouched_or_switched (runs : list invocation) (w0 w : world) :
  (∀ d n, read_outcome (fs w0) = Returned (VDict d) → n ∈ valid_networks →
          reloads (VDict (dict_setitem (str "network") (VStr n) d))) →
  untouched_or_switched (fs w0) (fs w) →
  untouched_or_switched (fs w0) (fs (run_all runs w)).
Proof.
  intros Hre. revert w. induction runs as [|[args stdin] rest IH]; intros w Hw; [done|].
  simpl. apply IH. by apply main_untouched_or_switched.
Qed.

(** Across any sequence of runs of the program, whatever arguments and
    input they get: either the config file is still as it was before the
    first run, or it holds an object whose "network" is "mainnet" or
    "testnet".  No run writes any other network name. *)
Theorem network_written_is_valid (runs : list invocation) (w : world) :
  (∀ d n,
     fst (read_config w) = Returned (VDict d) →
     n ∈ valid_networks →
     reloads (VDict (dict_setitem (str "network") (VStr n) d))) →
  config_of (fs (run_all runs w)) = config_of (fs w)
  ∨ ∃ d n,
      n ∈ valid_networks
      ∧ fst (read_config (run_all runs w)) = Returned (VDict d)
      ∧ dict_lookup (str "network") d = Some (VStr n).
Proof.
  intros Hre. rewrite read_config_run in Hre. simpl in Hre.
  destruct (run_all_untouched_or_switched runs w w Hre) as [Hsame|(d0 & m & Hread & Hm & Hfs)];
    [by left|by left|].
  right. exists (dict_setitem (str "network") (VStr m) d0), m.
  split; [done|]. split; [|apply dict_lookup_setitem_eq].
  rewrite read_config_run, Hfs. simpl. apply read_outcome_written. by apply Hre.
Qed.

End FurtherLoop.

(** * What the menu session shows first *)

Section FurtherOutput.

Context {RT : PyRuntime}.

#[local] Opaque str.











End FurtherOutput.

(** ** The further properties on concrete files *)

Lemma write_config_then_read_config_witness :
  fst (read_config
         (snd (write_config (VDict [(str "network", VStr (str "testnet"));
                                    (str "peers", VList [VInt 1; VInt 2])])
                 (with_file "left over from an older version"))))
  = Returned (VDict [(str "network", VStr (str "testnet"));
                     (str "peers", VList [VInt 1; VInt 2])]).
Proof.
  refine (proj2 (write_config_then_read_config (RT := CPython.runtime)
                   (with_file "left over from an older version")
                   (Some "left over from an older version"%string) _ eq_refl _)).
  vm_compute. reflexivity.
Defined.

Lemma main_switch_writes_fresh_config_witness :
  main {| network := Some (str "testnet"); check := true |} [] empty_home
  = (Returned tt,
     World (DirPresent (Some (quoted "{
    'network': 'testnet'
}")))
           ([9989] ++ str " Successfully set network to testnet" ++ [10]
            ++ str "Note: You may need to restart your Bittensor services to apply this change."
            ++ [10])
           [Makedirs; OpenRead; OpenWrite]).
Proof.
  assert (Hn : str "testnet" ∈ valid_networks) by compute_done.
  rewrite (main_switch_writes_fresh_config (RT := CPython.runtime)
             empty_home (str "testnet") true [] Hn (or_introl eq_refl)).
  by vm_compute.
Defined.

Lemma switch_network_type_error_witness :
  switch_network (str "mainnet") (with_file (quoted "'testnet'"))
  = (Raised TypeError, World (DirPresent (Some (quoted "'testnet'"))) [] [OpenRead]).
Proof.
  assert (Hn : str "mainnet" ∈ valid_networks) by compute_done.
  apply (switch_network_type_error (RT := CPython.runtime)
           (with_file (quoted "'testnet'")) (str "mainnet") (quoted "'testnet'")
           (VStr (str "testnet")) Hn eq_refl).
  - vm_compute. reflexivity.
  - intros d. discriminate.
Defined.

Lemma undecodable_file_stops_both_witness :
  let content := String "195" (String "040" EmptyString) in
  switch_network (str "testnet") (with_file content)
  = (Raised UnicodeDecodeError, World (DirPresent (Some content)) [] [OpenRead])
  ∧ check_current_network (with_file content)
    = (Raised UnicodeDecodeError, World (DirPresent (Some content)) [] [OpenRead]).
Proof.
  intros content.
  assert (Hn : str "testnet" ∈ valid_networks) by compute_done.
  apply (undecodable_file_stops_both (RT := CPython.runtime)
           (with_file content) (str "testnet") content Hn eq_refl).
  vm_compute. reflexivity.
Defined.

Lemma switch_network_without_directory_witness :
  switch_network (str "mainnet") empty_home
  = (Raised FileNotFoundError, World DirAbsent [] [OpenRead; OpenWrite]).
Proof.
  assert (Hn : str "mainnet" ∈ valid_networks) by compute_done.
  exact (switch_network_without_directory (RT := CPython.runtime)
           empty_home (str "mainnet") Hn eq_refl).
Defined.

Lemma switch_network_last_wins_witness :
  fs (snd (switch_network (str "mainnet")
             (snd (switch_network (str "testnet") (with_file mainnet_and_extra)))))
  = fs (snd (switch_network (str "mainnet") (with_file mainnet_and_extra))).
Proof.
  assert (Ha : str "testnet" ∈ valid_networks) by compute_done.
  assert (Hb : str "mainnet" ∈ valid_networks) by compute_done.
  apply (switch_network_last_wins (RT := CPython.runtime)
           (with_file mainnet_and_extra) (str "testnet") (str "mainnet")
           (Some mainnet_and_extra)
           [(str "network", VStr (str "mainnet")); (str "extra", VStr (str "keepme"))]
           Ha Hb eq_refl).
  - vm_compute. reflexivity.
  - vm_compute. reflexivity.
Defined.

Lemma switch_network_then_check_witness :
  ∃ w1,
    switch_network (str "mainnet") (with_file "{ not json") = (Returned tt, w1)
    ∧ check_current_network w1 =
        (Returned tt,
         World (fs w1) (stdout w1 ++ str "Current network: " ++ str "mainnet" ++ [10])
               (fs_calls w1 ++ [OpenRead])).
Proof.
  assert (Hn : str "mainnet" ∈ valid_networks) by compute_done.
  apply (switch_network_then_check (RT := CPython.runtime)
           (with_file "{ not json") (str "mainnet") (Some "{ not json"%string)
           [(str "network", VStr (str "Not set"))] Hn eq_refl).
  - vm_compute. reflexivity.
  - vm_compute. reflexivity.
Defined.


Lemma check_current_network_attribute_error_witness :
  check_current_network (with_file "null")
  = (Raised AttributeError, World (DirPresent (Some "null"%string)) [] [OpenRead]).
Proof.
  apply (check_current_network_attribute_error (RT := CPython.runtime)
           (with_file "null") "null"%string VNone eq_refl).
  - vm_compute. reflexivity.
  - intros d. discriminate.
Defined.

Lemma menu_choice_switches_witness :
  fs (snd (while_true [Line (str " 2 "); Line (str "4")] (World (DirPresent None) [] [])))
  = DirPresent (Some (quoted "{
    'network': 'testnet'
}")).
Proof.
  rewrite (menu_choice_switches (RT := CPython.runtime)
             (str " 2 ") (str "testnet") [Line (str "4")] (World (DirPresent None) [] [])
             None [(str "network", VStr (str "Not set"))]).
  - by vm_compute.
  - right. split; [by vm_compute|reflexivity].
  - reflexivity.
  - by vm_compute.
Defined.


Lemma other_exceptions_end_loop_witness :
  while_true [Line (str "1"); Line (str "4")] (with_file "[]")
  = (Raised TypeError,
     World (DirPresent (Some "[]"%string)) (str "Enter your choice (1-4): ") [OpenRead]).
Proof.
  apply (other_exceptions_end_loop (RT := CPython.runtime)
           [Line (str "1"); Line (str "4")] (with_file "[]")).
  - discriminate.
  - by vm_compute.
Defined.

Lemma eof_ends_session_witness :
  let run := main {| network := None; check := false |}
               [Line (str "mainnet"); Line (str "")] empty_home in
  fst run = Raised EOFError
  ∧ exit_status (fst run) = 1%Z
  ∧ fs (snd run) = DirPresent None
  ∧ fs_calls (snd run) = [Makedirs].
Proof.
  apply (eof_ends_session (RT := CPython.runtime)
           {| network := None; check := false |}
           [Line (str "mainnet"); Line (str "")] empty_home eq_refl eq_refl).
  repeat constructor.
  - exists (str "mainnet"). split; [reflexivity|compute_done].
  - exists (str ""). split; [reflexivity|compute_done].
Defined.

Lemma session_without_switch_keeps_file_witness :
  fs (snd (main {| network := None; check := false |}
             [Line (str "3"); Line (str "12"); Interrupt]
             (with_file mainnet_and_extra)))
  = DirPresent (Some mainnet_and_extra).
Proof.
  apply (session_without_switch_keeps_file (RT := CPython.runtime)
           {| network := None; check := false |}
           [Line (str "3"); Line (str "12"); Interrupt]
           (with_file mainnet_and_extra) eq_refl eq_refl).
  apply Forall_cons; [|apply Forall_cons; [|apply Forall_cons; [|apply Forall_nil]]].
  - intros l [= <-]. split; by vm_compute.
  - intros l [= <-]. split; by vm_compute.
  - intros l [=].
Defined.

Lemma network_written_is_valid_witness :
  let runs :=
    [({| network := Some (str "devnet"); check := false |}, []);
     ({| network := None; check := false |}, [Line (str "2"); Line (str "1"); Interrupt]);
     ({| network := None; check := true |}, [])] in
  config_of (fs (run_all runs (with_file mainnet_and_extra)))
  = config_of (fs (with_file mainnet_and_extra))
  ∨ ∃ d n,
      n ∈ valid_networks
      ∧ fst (read_config (run_all runs (with_file mainnet_and_extra))) = Returned (VDict d)
      ∧ dict_lookup (str "network") d = Some (VStr n).
Proof.
  apply (network_written_is_valid (RT := CPython.runtime)).
  intros d n Hd Hn. vm_compute in Hd. injection Hd as <-.
  apply elem_of_cons in Hn as [->|Hn]; [vm_compute; reflexivity|].
  apply elem_of_cons in Hn as [->|Hn]; [vm_compute; reflexivity|].
  by apply elem_of_nil in Hn.
Defined.

